(** * solar-house: the MyEnergi scripts [fetch_2025.py] and [test_myenergi.py]

    A shallow embedding of the two scripts and of the Python operations
    they rely on, followed by the properties of the fetch-and-aggregate
    loop, of the report and of the credential probe. *)

From Stdlib Require Import ZArith List String Ascii Bool Lia.
From Stdlib Require Import Floats.SpecFloat Numbers.DecimalString.
Import ListNotations.

Set Warnings "-register-all".
Local Open Scope Z_scope.
Local Open Scope string_scope.

(* ===================================================================== *)
(** * Python values and the operations the scripts apply to them *)
(* ===================================================================== *)

Module Py.

(** An instance of [Exception]: its class and what [str(e)] gives.  The
    texts of the interpreter's own errors follow CPython 3.12. *)
Record exn := mk_exn { exn_class : string; exn_str : string }.

Definition TypeError (msg : string) : exn := mk_exn "TypeError" msg.
Definition KeyError (msg : string) : exn := mk_exn "KeyError" msg.
Definition OverflowError (msg : string) : exn := mk_exn "OverflowError" msg.

(** The result of evaluating an expression: a value or a raised
    exception. *)
Inductive result (A : Type) : Type :=
| Ok (a : A)
| Err (e : exn).
Arguments Ok {A} a.
Arguments Err {A} e.

Definition rbind {A B} (r : result A) (k : A -> result B) : result B :=
  match r with
  | Ok a => k a
  | Err e => Err e
  end.

(** ** Numbers

    [int] is unbounded; [float] is IEEE 754 binary64, here the standard
    library's specification of floats at precision 53. *)
Definition prec : Z := 53.
Definition emax : Z := 1024.

Inductive number :=
| Int (z : Z)
| Float (f : spec_float).

(** What [json.loads] builds (strings are kept as their bytes). *)
Inductive value :=
| VNone
| VBool (b : bool)
| VNum (n : number)
| VStr (s : string)
| VList (l : list value)
| VDict (kv : list (string * value)).

Definition num_type_name (n : number) : string :=
  match n with
  | Int _ => "int"
  | Float _ => "float"
  end.

Definition type_name (v : value) : string :=
  match v with
  | VNone => "NoneType"
  | VBool _ => "bool"
  | VNum n => num_type_name n
  | VStr _ => "str"
  | VList _ => "list"
  | VDict _ => "dict"
  end.

(** [float(z)]: the nearest binary64, ties to even; raises when [z]
    rounds beyond the largest finite float. *)
Definition float_of_int (z : Z) : result spec_float :=
  match binary_normalize prec emax z 0 false with
  | S754_infinity _ => Err (OverflowError "int too large to convert to float")
  | f => Ok f
  end.

(** [a + b] on numbers; a mixed sum converts the [int] operand. *)
Definition num_add (a b : number) : result number :=
  match a, b with
  | Int x, Int y => Ok (Int (x + y))
  | Int x, Float g => rbind (float_of_int x) (fun f => Ok (Float (SFadd prec emax f g)))
  | Float f, Int y => rbind (float_of_int y) (fun g => Ok (Float (SFadd prec emax f g)))
  | Float f, Float g => Ok (Float (SFadd prec emax f g))
  end.

(** [a - b] on numbers. *)
Definition num_sub (a b : number) : result number :=
  match a, b with
  | Int x, Int y => Ok (Int (x - y))
  | Int x, Float g => rbind (float_of_int x) (fun f => Ok (Float (SFsub prec emax f g)))
  | Float f, Int y => rbind (float_of_int y) (fun g => Ok (Float (SFsub prec emax f g)))
  | Float f, Float g => Ok (Float (SFsub prec emax f g))
  end.

(** [a += v] with [a] a number and [v] any value: [bool] is a subclass
    of [int], every other non-number is a [TypeError]. *)
Definition iadd (a : number) (v : value) : result number :=
  match v with
  | VNum n => num_add a n
  | VBool b => num_add a (Int (Z.b2z b))
  | _ => Err (TypeError ("unsupported operand type(s) for +=: '" ++ num_type_name a
                         ++ "' and '" ++ type_name v ++ "'"))
  end.

(** [a / d] for a positive [int] constant [d]: true division.  On two
    ints the quotient is rounded once, to the nearest float. *)
Definition truediv (a : number) (d : positive) : result spec_float :=
  match a with
  | Int 0 => Ok (S754_zero false)
  | Int (Zpos m) =>
      match SFdiv prec emax (S754_finite false m 0) (S754_finite false d 0) with
      | S754_infinity _ => Err (OverflowError "integer division result too large for a float")
      | q => Ok q
      end
  | Int (Zneg m) =>
      match SFdiv prec emax (S754_finite true m 0) (S754_finite false d 0) with
      | S754_infinity _ => Err (OverflowError "integer division result too large for a float")
      | q => Ok q
      end
  | Float f => rbind (float_of_int (Zpos d)) (fun g => Ok (SFdiv prec emax f g))
  end.

(** ** Text *)

(** [str(z)] for an int. *)
Definition str_of_Z (z : Z) : string := NilZero.string_of_int (Z.to_int z).

(** [n / d] rounded to the nearest integer, ties to even ([0 <= n], [0 < d]). *)
Definition div_half_even (n d : Z) : Z :=
  let q := n / d in
  match (2 * (n mod d)) ?= d with
  | Lt => q
  | Eq => if Z.even q then q else q + 1
  | Gt => q + 1
  end.

(** The magnitude [m * 2^e] in tenths, rounded on its exact value. *)
Definition tenths (m : positive) (e : Z) : Z :=
  match e with
  | Zneg p => div_half_even (10 * Zpos m) (2 ^ Zpos p)
  | _ => 10 * Zpos m * 2 ^ e
  end.

Definition sign_text (s : bool) : string := if s then "-" else "".

(** [format(f, ".1f")]. *)
Definition format_1f (f : spec_float) : string :=
  match f with
  | S754_nan => "nan"
  | S754_infinity s => sign_text s ++ "inf"
  | S754_zero s => sign_text s ++ "0.0"
  | S754_finite s m e =>
      let t := tenths m e in
      sign_text s ++ str_of_Z (t / 10) ++ "." ++ str_of_Z (t mod 10)
  end.




(** [sub in s] on two strings. *)
Fixpoint is_substring (sub s : string) : bool :=
  prefix sub s ||
  match s with
  | EmptyString => false
  | String _ rest => is_substring sub rest
  end.

(** ** Containers *)

Fixpoint dict_get {V : Type} (kv : list (string * V)) (k : string) : option V :=
  match kv with
  | [] => None
  | (k', v) :: rest => if String.eqb k' k then Some v else dict_get rest k
  end.

(** [d[k] = v] for a key already in [d]: the entry keeps its place. *)
Fixpoint dict_set {V : Type} (kv : list (string * V)) (k : string) (v : V)
  : list (string * V) :=
  match kv with
  | [] => [(k, v)]
  | (k', v') :: rest =>
      if String.eqb k' k then (k', v) :: rest else (k', v') :: dict_set rest k v
  end.

Definition dict_keys {V : Type} (kv : list (string * V)) : list string :=
  map fst kv.

Definition is_str (k : string) (v : value) : bool :=
  match v with
  | VStr s => String.eqb s k
  | _ => false
  end.

(** [k in c] for a [str] [k]. *)
Definition contains (c : value) (k : string) : result bool :=
  match c with
  | VDict kv => Ok (existsb (String.eqb k) (dict_keys kv))
  | VList l => Ok (existsb (is_str k) l)
  | VStr s => Ok (is_substring k s)
  | _ => Err (TypeError ("argument of type '" ++ type_name c ++ "' is not iterable"))
  end.

(** [c[k]] for a [str] [k]. *)
Definition getitem (c : value) (k : string) : result value :=
  match c with
  | VDict kv =>
      match dict_get kv k with
      | Some v => Ok v
      | None => Err (KeyError ("'" ++ k ++ "'"))
      end
  | VList _ => Err (TypeError "list indices must be integers or slices, not str")
  | VStr _ => Err (TypeError "string indices must be integers, not 'str'")
  | _ => Err (TypeError ("'" ++ type_name c ++ "' object is not subscriptable"))
  end.

(** What [for x in c] ranges over: the items of a list, the keys of a
    dict, the characters of a string. *)
Definition iter (c : value) : result (list value) :=
  match c with
  | VList l => Ok l
  | VDict kv => Ok (map VStr (dict_keys kv))
  | VStr s => Ok (map (fun a => VStr (String a "")) (list_ascii_of_string s))
  | _ => Err (TypeError ("'" ++ type_name c ++ "' object is not iterable"))
  end.

End Py.

(* ===================================================================== *)
(** * [datetime.date] *)
(* ===================================================================== *)

Module Datetime.

Import Py.
Local Open Scope Z_scope.

(** A [date] is kept as its proleptic Gregorian ordinal
    ([date.toordinal()], 0001-01-01 being day 1): dates compare as their
    ordinals do and [d + timedelta(days=n)] adds [n] to the ordinal.
    Year, month and day are read back as CPython's [_ord2ymd] does. *)
Definition date := Z.

Definition is_leap (year : Z) : bool :=
  (year mod 4 =? 0) && (negb (year mod 100 =? 0) || (year mod 400 =? 0)).

Definition days_before_year (year : Z) : Z :=
  let y := year - 1 in
  y * 365 + y / 4 - y / 100 + y / 400.

(** [_DAYS_IN_MONTH]. *)
Definition DAYS_IN_MONTH : list Z :=
  [0; 31; 28; 31; 30; 31; 30; 31; 31; 30; 31; 30; 31].

Definition days_in_month (year month : Z) : Z :=
  if (month =? 2) && is_leap year then 29
  else nth (Z.to_nat month) DAYS_IN_MONTH 0.

(** [_DAYS_BEFORE_MONTH]. *)
Definition DAYS_BEFORE_MONTH : list Z :=
  [0; 0; 31; 59; 90; 120; 151; 181; 212; 243; 273; 304; 334].

Definition days_before_month (year month : Z) : Z :=
  nth (Z.to_nat month) DAYS_BEFORE_MONTH 0
  + (if (2 <? month) && is_leap year then 1 else 0).

Definition ymd2ord (year month day : Z) : Z :=
  days_before_year year + days_before_month year month + day.

Definition DI400Y : Z := 146097.
Definition DI100Y : Z := 36524.
Definition DI4Y : Z := 1461.

Definition ord2ymd (ordinal : Z) : Z * Z * Z :=
  let n := ordinal - 1 in
  let n400 := n / DI400Y in
  let n := n mod DI400Y in
  let year := n400 * 400 + 1 in
  let n100 := n / DI100Y in
  let n := n mod DI100Y in
  let n4 := n / DI4Y in
  let n := n mod DI4Y in
  let n1 := n / 365 in
  let n := n mod 365 in
  let year := year + n100 * 100 + n4 * 4 + n1 in
  if (n1 =? 4) || (n100 =? 4) then (year - 1, 12, 31)
  else
    let leapyear := (n1 =? 3) && (negb (n4 =? 24) || (n100 =? 3)) in
    let month := Z.shiftr (n + 50) 5 in
    let preceding :=
      nth (Z.to_nat month) DAYS_BEFORE_MONTH 0
      + (if (2 <? month) && leapyear then 1 else 0) in
    if n <? preceding then
      let month := month - 1 in
      let preceding :=
        preceding - (nth (Z.to_nat month) DAYS_IN_MONTH 0
                     + (if (month =? 2) && leapyear then 1 else 0)) in
      (year, month, n - preceding + 1)
    else (year, month, n - preceding + 1).

(** [date(year, month, day)], for a valid triple (the script builds
    2025-01-01 and 2025-12-31). *)
Definition mkdate (year month day : Z) : date := ymd2ord year month day.

Definition year_of (d : date) : Z := fst (fst (ord2ymd d)).
Definition month_of (d : date) : Z := snd (fst (ord2ymd d)).
Definition day_of (d : date) : Z := snd (ord2ymd d).

(** [date.max.toordinal()], 9999-12-31. *)
Definition MAXORDINAL : Z := 3652059.

(** [d + timedelta(days=n)]. *)
Definition add_days (d : date) (n : Z) : result date :=
  if (0 <? d + n) && (d + n <=? MAXORDINAL) then Ok (d + n)
  else Err (OverflowError "date value out of range").

(** [str(z).zfill(width)] for [0 <= z]. *)
Definition zfill (width : nat) (z : Z) : string :=
  let s := str_of_Z z in
  string_of_list_ascii (repeat "0"%char (width - String.length s)) ++ s.

Definition month_name (month : Z) : string :=
  nth (Z.to_nat month)
      [""; "January"; "February"; "March"; "April"; "May"; "June"; "July";
       "August"; "September"; "October"; "November"; "December"] "".

(** [d.strftime("%Y-%m-%d")] as CPython gives it on glibc: [%Y] is the
    year as it stands, without padding (four digits from the year 1000
    on), [%m] and [%d] are on two digits. *)
Definition strftime_Ymd (d : date) : string :=
  str_of_Z (year_of d) ++ "-" ++ zfill 2 (month_of d) ++ "-" ++ zfill 2 (day_of d).

(** [d.strftime("%B %Y")], in the C locale. *)
Definition strftime_BY (d : date) : string :=
  month_name (month_of d) ++ " " ++ str_of_Z (year_of d).

(** ** Checking the calendar *)

(** Year, month and day read off an ordinal are a date of the calendar,
    and the date with that ordinal. *)
Definition date_checked (n : Z) : bool :=
  let '(y, m, d) := ord2ymd n in
  (ymd2ord y m d =? n) && (1 <=? y) && (1 <=? m) && (m <=? 12)
  && (1 <=? d) && (d <=? days_in_month y m).

(** [p] holds of the [k] integers from [n] on. *)
Fixpoint all_from (k : nat) (n : Z) (p : Z -> bool) : bool :=
  match k with
  | O => true
  | S k' => p n && all_from k' (n + 1) p
  end.

End Datetime.

(* ===================================================================== *)
(** * [requests]: what a GET hands back *)
(* ===================================================================== *)

Module Http.

Import Py.

(** A [Response], as far as the scripts look at it.  [json] is what
    [resp.json()] gives: the decoded body, or the decoder's exception. *)
Record response := mk_response {
  ok : bool;
  text : string;
  json : result value;
  headers : list (string * string)
}.

Definition lower_ascii (a : ascii) : ascii :=
  let n := nat_of_ascii a in
  if (Nat.leb 65 n && Nat.leb n 90)%bool then ascii_of_nat (n + 32) else a.

Fixpoint lower (s : string) : string :=
  match s with
  | EmptyString => EmptyString
  | String a rest => String (lower_ascii a) (lower rest)
  end.

(** [resp.headers] is a [CaseInsensitiveDict]: names are compared
    lower-cased. *)
Fixpoint header_get (hs : list (string * string)) (name : string) : option string :=
  match hs with
  | [] => None
  | (n, v) :: rest =>
      if String.eqb (lower n) (lower name) then Some v else header_get rest name
  end.

Definition header_in (name : string) (hs : list (string * string)) : bool :=
  match header_get hs name with
  | Some _ => true
  | None => false
  end.

End Http.

(* ===================================================================== *)
(** * Running a script: state, exceptions, exit *)
(* ===================================================================== *)

Module Script.

Import Py.

(** How a piece of a script ends: it falls through with a value, an
    [Exception] travels up, [exit(code)] was called, or the bound given
    to a loop was used up. *)
Inductive outcome (A : Type) : Type :=
| Normal (a : A)
| Raised (e : exn)
| Exited (code : Z)
| OutOfFuel.
Arguments Normal {A} a.
Arguments Raised {A} e.
Arguments Exited {A} code.
Arguments OutOfFuel {A}.

Section Monad.

Context {S : Type}.

(** A computation over the script's globals [S]; whatever was written
    before an exception is raised stays written. *)
Definition M (A : Type) : Type := S -> outcome A * S.

Definition ret {A} (a : A) : M A := fun st => (Normal a, st).

Definition bind {A B} (m : M A) (k : A -> M B) : M B :=
  fun st =>
    match m st with
    | (Normal a, st') => k a st'
    | (Raised e, st') => (Raised e, st')
    | (Exited c, st') => (Exited c, st')
    | (OutOfFuel, st') => (OutOfFuel, st')
    end.

Definition gets {A} (f : S -> A) : M A := fun st => (Normal (f st), st).

Definition modify (f : S -> S) : M unit := fun st => (Normal tt, f st).

Definition raise {A} (e : exn) : M A := fun st => (Raised e, st).

(** [exit(code)]: [SystemExit] is no [Exception] and passes every
    [except Exception]. *)
Definition exit {A} (code : Z) : M A := fun st => (Exited code, st).

Definition lift {A} (r : result A) : M A :=
  match r with
  | Ok a => ret a
  | Err e => raise e
  end.

(** [try: body / except Exception as e: handler e]. *)
Definition try_except (body : M unit) (handler : exn -> M unit) : M unit :=
  fun st =>
    match body st with
    | (Raised e, st') => handler e st'
    | r => r
    end.

(** [for x in xs: body x] over a list that the body leaves alone. *)
Fixpoint for_each {A} (xs : list A) (body : A -> M unit) : M unit :=
  match xs with
  | [] => ret tt
  | x :: rest => bind (body x) (fun _ => for_each rest body)
  end.

(** [while cond: body], giving up after [fuel] tests of the condition. *)
Fixpoint while (fuel : nat) (cond : S -> bool) (body : M unit) : M unit :=
  match fuel with
  | O => fun st => (OutOfFuel, st)
  | Datatypes.S fuel' =>
      fun st =>
        if cond st then bind body (fun _ => while fuel' cond body) st
        else (Normal tt, st)
  end.

End Monad.

Arguments M S A : clear implicits.

(** The piece ended by falling through or by an exception. *)
Definition settled {A} (o : outcome A) : Prop :=
  match o with
  | Normal _ | Raised _ => True
  | Exited _ | OutOfFuel => False
  end.

Definition is_normal {A} (o : outcome A) : bool :=
  match o with
  | Normal _ => true
  | _ => false
  end.

(** A computation that ends settled, in a state related by [R] to the
    one it started in. *)
Definition keeps {S A} (R : S -> S -> Prop) (m : M S A) : Prop :=
  forall st, settled (fst (m st)) /\ R st (snd (m st)).

Declare Scope script_scope.
Delimit Scope script_scope with script.
Notation "x <- m ;; k" := (bind m (fun x => k))
  (at level 61, m at next level, right associativity) : script_scope.
Notation "m ;; k" := (bind m (fun _ => k))
  (at level 61, right associativity) : script_scope.

End Script.

(* ===================================================================== *)
(** * [fetch_2025.py] *)
(* ===================================================================== *)

Module Fetch2025.

Import Py Datetime Http Script.
Local Open Scope Z_scope.
Local Open Scope script_scope.

(** [SERIAL] and [API_KEY] only feed the digest authentication of the
    session, which [get] below stands for. *)
Definition ZAPPI : string := "21962448".
Definition SERVER : string := "s18.myenergi.net".

(** The statement a line of output comes from. *)
Inductive printer := ErrorLine | ProgressLine | ReportLine.

(** The globals of the script, with what it has printed and the URLs it
    has requested so far. *)
Record state := mk_state {
  totals : list (string * number);
  days_processed : Z;
  current : date;
  stdout : list (printer * string);
  requests : list string
}.

Definition set_totals (t : list (string * number)) (st : state) : state :=
  mk_state t (days_processed st) (current st) (stdout st) (requests st).

Definition set_days_processed (n : Z) (st : state) : state :=
  mk_state (totals st) n (current st) (stdout st) (requests st).

Definition set_current (d : date) (st : state) : state :=
  mk_state (totals st) (days_processed st) d (stdout st) (requests st).

Definition print (p : printer) (line : string) : M state unit :=
  modify (fun st =>
    mk_state (totals st) (days_processed st) (current st)
             (stdout st ++ [(p, line)]) (requests st)).

Definition log_request (url : string) (st : state) : state :=
  mk_state (totals st) (days_processed st) (current st) (stdout st)
           (requests st ++ [url]).

Definition initial_totals : list (string * number) :=
  [("imp", Int 0); ("exp", Int 0); ("gep", Int 0);
   ("gen", Int 0); ("h1d", Int 0); ("h1b", Int 0)].

Definition initial (start : date) : state :=
  mk_state initial_totals 0 start [] [].

(** [totals[field]]. *)
Definition totals_get (field : string) : M state number :=
  fun st =>
    match dict_get (totals st) field with
    | Some n => (Normal n, st)
    | None => (Raised (KeyError ("'" ++ field ++ "'")), st)
    end.

(** [time.sleep(0.1)]: a pause, nothing else. *)
Definition sleep : M state unit := ret tt.

Definition newline : string := String (ascii_of_nat 10) "".

Section Session.

(** The authenticated session: what [session.get(url, timeout=30)] does
    for each URL, return a response or raise.  The loop asks for each
    date's URL once, so a function of the URL stands for any sequence
    of daily responses. *)
Variable get : string -> result response.

Definition session_get (url : string) : M state response :=
  fun st =>
    match get url with
    | Ok r => (Normal r, log_request url st)
    | Err e => (Raised e, log_request url st)
    end.

(** [if field in reading: totals[field] += reading[field]]. *)
Definition add_field (reading : value) (field : string) : M state unit :=
  present <- lift (contains reading field) ;;
  if present : bool then
    old <- totals_get field ;;
    v <- lift (getitem reading field) ;;
    new <- lift (iadd old v) ;;
    modify (fun st => set_totals (dict_set (totals st) field new) st)
  else ret tt.

(** [for field in totals: ...]. *)
Definition add_reading (reading : value) : M state unit :=
  fields <- gets (fun st => dict_keys (totals st)) ;;
  for_each fields (add_field reading).

Definition day_url (date_str : string) : string :=
  "https://" ++ SERVER ++ "/cgi-jday-Z" ++ ZAPPI ++ "-" ++ date_str.

Definition key : string := "U" ++ ZAPPI.

(** The suite of the [try]. *)
Definition try_suite (url : string) : M state unit :=
  resp <- session_get url ;;
  if ok resp && negb (String.eqb (text resp) "") then
    data <- lift (json resp) ;;
    present <- lift (contains data key) ;;
    (if present : bool then
       readings <- lift (rbind (getitem data key) iter) ;;
       for_each readings add_reading
     else ret tt) ;;
    modify (fun st => set_days_processed (days_processed st + 1) st)
  else ret tt.

(** The body of the [while]. *)
Definition iteration : M state unit :=
  cur <- gets current ;;
  let date_str := strftime_Ymd cur in
  try_except (try_suite (day_url date_str))
             (fun e => print ErrorLine ("Error " ++ date_str ++ ": " ++ exn_str e)) ;;
  (if day_of cur =? 1 then
     n <- gets days_processed ;;
     print ProgressLine (strftime_BY cur ++ "... (" ++ str_of_Z n ++ " days)")
   else ret tt) ;;
  next <- lift (add_days cur 1) ;;
  modify (set_current next) ;;
  sleep.

(** [while current <= end: ...]. *)
Definition loop (fuel : nat) (end_ : date) : M state unit :=
  while fuel (fun st => current st <=? end_) iteration.

Definition kwh_line (label : string) (n : number) : M state unit :=
  q <- lift (truediv n 3600000) ;;
  print ReportLine (label ++ format_1f q ++ " kWh").

(** The five [print]s after the loop. *)
Definition report : M state unit :=
  n <- gets days_processed ;;
  print ReportLine (newline ++ "=== 2025 Totals (" ++ str_of_Z n ++ " days) ===") ;;
  imp <- totals_get "imp" ;;
  kwh_line "Import (from grid): " imp ;;
  exp <- totals_get "exp" ;;
  kwh_line "Export (to grid):   " exp ;;
  gep <- totals_get "gep" ;;
  kwh_line "Generation (solar): " gep ;;
  imp <- totals_get "imp" ;;
  gep <- totals_get "gep" ;;
  sum <- lift (num_add imp gep) ;;
  exp <- totals_get "exp" ;;
  consumption <- lift (num_sub sum exp) ;;
  kwh_line "Consumption (est.): " consumption.

(** One more test of the condition than there are dates to visit. *)
Definition fuel_for (start end_ : date) : nat :=
  Datatypes.S (Z.to_nat (end_ - start + 1)).

(** The script from [current = start] on, for a range [start .. end_]. *)
Definition run (start end_ : date) : outcome unit * state :=
  (loop (fuel_for start end_) end_ ;; report) (initial start).

(** The script as it stands: the year 2025. *)
Definition fetch_2025 : outcome unit * state :=
  run (mkdate 2025 1 1) (mkdate 2025 12 31).

(** The globals when the loop over [start .. end_] is left. *)
Definition loop_state (start end_ : date) : state :=
  snd (loop (fuel_for start end_) end_ (initial start)).

(** ** What the properties below are stated with *)

(** The globals after one more pass through the body of the loop. *)
Definition step (st : state) : state := snd (iteration st).

(** The dates the loop visits: [start], [start + 1], ..., [end_]. *)
Definition date_range (start end_ : date) : list date :=
  map (fun i => start + Z.of_nat i) (seq 0 (Z.to_nat (end_ - start + 1))).

Definition url_of (d : date) : string := day_url (strftime_Ymd d).

(** The response was OK, its body non-empty. *)
Definition answered (r : result response) : bool :=
  match r with
  | Ok resp => ok resp && negb (String.eqb (text resp) "")
  | Err _ => false
  end.

(** The body of such a response, when [resp.json()] decodes it. *)
Definition parsed (r : result response) : option value :=
  match r with
  | Ok resp =>
      if ok resp && negb (String.eqb (text resp) "") then
        match json resp with
        | Ok data => Some data
        | Err _ => None
        end
      else None
  | Err _ => None
  end.

(** The per-device key was found in a decoded, non-empty response. *)
Definition key_found (r : result response) : bool :=
  match parsed r with
  | Some data =>
      match contains data key with
      | Ok true => true
      | _ => false
      end
  | None => false
  end.

(** The response decodes to an object without the per-device key. *)
Definition keyless (r : result response) : bool :=
  match parsed r with
  | Some (VDict kv) => negb (existsb (String.eqb key) (dict_keys kv))
  | _ => false
  end.

(** The suite of the [try] for date [d], started in [st], runs to its
    end on an OK, non-empty response. *)
Definition completes (st : state) (d : date) : bool :=
  answered (get (url_of d)) && is_normal (fst (try_suite (url_of d) st)).

(** The tracked fields. *)
Definition fields : list string := dict_keys initial_totals.

(** A field's value in a reading record, a missing field counting 0. *)
Definition field_value (field : string) (reading : value) : Z :=
  match reading with
  | VDict kv =>
      match dict_get kv field with
      | Some (VNum (Int z)) => z
      | _ => 0
      end
  | _ => 0
  end.

(** The reading records of a decoded response. *)
Definition readings_of (data : value) : list value :=
  match data with
  | VDict kv =>
      match dict_get kv key with
      | Some (VList rs) => rs
      | _ => []
      end
  | _ => []
  end.

Definition sumZ (l : list Z) : Z := fold_right Z.add 0 l.

(** A field summed over the reading records of one day's response. *)
Definition day_sum (field : string) (r : result response) : Z :=
  match parsed r with
  | Some data => sumZ (map (field_value field) (readings_of data))
  | None => 0
  end.

(** A field summed over all successfully parsed days of the range and
    all reading records within them. *)
Definition sum_over_parsed_days (field : string) (start end_ : date) : Z :=
  sumZ (map (fun d => day_sum field (get (url_of d))) (date_range start end_)).

(** The same sum over the days counted as processed only. *)
Definition sum_over_counted_days (field : string) (start end_ : date) : Z :=
  sumZ (map (fun d =>
               if completes (loop_state start (d - 1)) d
               then day_sum field (get (url_of d)) else 0)
            (date_range start end_)).

(** [v] can stand on the right of [+=] on a number. *)
Definition is_number (v : value) : bool :=
  match v with
  | VNum _ | VBool _ => true
  | _ => false
  end.

(** A field of a record is missing or an integer. *)
Definition field_ok (kv : list (string * value)) (field : string) : bool :=
  match dict_get kv field with
  | None => true
  | Some (VNum (Int _)) => true
  | Some _ => false
  end.

(** A reading record as the data model has it: an object whose tracked
    fields, where present, are integers. *)
Definition reading_ok (reading : value) : bool :=
  match reading with
  | VDict kv => forallb (field_ok kv) fields
  | _ => false
  end.

(** A day's response as the data model has it: when it decodes, it is
    an object that lacks the per-device key or holds under it a list of
    such reading records. *)
Definition day_ok (r : result response) : bool :=
  match parsed r with
  | None => true
  | Some (VDict kv) =>
      match dict_get kv key with
      | None => true
      | Some (VList rs) => forallb reading_ok rs
      | Some _ => false
      end
  | Some _ => false
  end.

(** The day fails before anything is added: the GET raises, the body
    does not decode, or what it decodes to cannot be searched for the
    key or iterated. *)
Definition fails_early (r : result response) : bool :=
  match r with
  | Err _ => true
  | Ok resp =>
      ok resp && negb (String.eqb (text resp) "") &&
      match json resp with
      | Err _ => true
      | Ok data =>
          match contains data key with
          | Err _ => true
          | Ok false => false
          | Ok true =>
              match rbind (getitem data key) iter with
              | Err _ => true
              | Ok _ => false
              end
          end
      end
  end.

(** What adding readings leaves alone: everything but the values held
    in [totals]. *)
Definition acc_frame (st st' : state) : Prop :=
  days_processed st' = days_processed st /\
  current st' = current st /\
  stdout st' = stdout st /\
  requests st' = requests st /\
  dict_keys (totals st') = dict_keys (totals st).

(** What the report leaves alone: it only appends lines of its own. *)
Definition report_frame (st st' : state) : Prop :=
  totals st' = totals st /\
  days_processed st' = days_processed st /\
  current st' = current st /\
  requests st' = requests st /\
  exists ls, stdout st' = (stdout st ++ ls)%list
             /\ Forall (fun l => fst l = ReportLine) ls.

(** [totals] holding the integer [t f] for each tracked field [f]. *)
Definition tot (t : string -> Z) : list (string * number) :=
  map (fun f => (f, Int (t f))) fields.

Definition is_progress (l : printer * string) : bool :=
  match fst l with
  | ProgressLine => true
  | _ => false
  end.

Definition progress_line (d : date) (n : Z) : printer * string :=
  (ProgressLine, strftime_BY d ++ "... (" ++ str_of_Z n ++ " days)").

Definition error_line (d : date) (e : exn) : printer * string :=
  (ErrorLine, "Error " ++ strftime_Ymd d ++ ": " ++ exn_str e).

(** The [Error ...] line of the pass, if the suite raised. *)
Definition error_lines (d : date) (o : outcome unit) : list (printer * string) :=
  match o with
  | Raised e => [error_line d e]
  | _ => []
  end.

(** The progress line of the pass, on the first of a month. *)
Definition progress_lines (d : date) (n : Z) : list (printer * string) :=
  if day_of d =? 1 then [progress_line d n] else [].

(** The lines of the pass for date [d] within the range from [start]. *)
Definition lines_of_day (start d : date) : list (printer * string) :=
  let r := try_suite (url_of d) (loop_state start (d - 1)) in
  (error_lines d (fst r) ++ progress_lines d (days_processed (snd r)))%list.

(** The number of dates of the range for which the per-device key was
    found in a successfully parsed, non-empty response. *)
Definition keyed_days (start end_ : date) : nat :=
  List.length (filter (fun d => key_found (get (url_of d))) (date_range start end_)).

(** The number of dates of the range whose response was OK, non-empty
    and decoded. *)
Definition parsed_days (start end_ : date) : nat :=
  List.length (filter (fun d => match parsed (get (url_of d)) with
                                | Some _ => true
                                | None => false
                                end)
                      (date_range start end_)).

(** The number of dates of the range whose [try] suite ran to its end
    on an OK, non-empty response. *)
Definition completed_days (start end_ : date) : nat :=
  List.length (filter (fun d => completes (loop_state start (d - 1)) d)
                      (date_range start end_)).

(** The lines of the report for a processed-day count and the four
    quotients, already divided. *)
Definition report_lines (n : Z) (imp exp gep consumption : spec_float)
  : list (printer * string) :=
  [ (ReportLine, newline ++ "=== 2025 Totals (" ++ str_of_Z n ++ " days) ===");
    (ReportLine, "Import (from grid): " ++ format_1f imp ++ " kWh");
    (ReportLine, "Export (to grid):   " ++ format_1f exp ++ " kWh");
    (ReportLine, "Generation (solar): " ++ format_1f gep ++ " kWh");
    (ReportLine, "Consumption (est.): " ++ format_1f consumption ++ " kWh") ].

(** The reading of the single-day example. *)
Definition one_kwh_reading : value :=
  VDict [("imp", VNum (Int 3600000)); ("exp", VNum (Int 0)); ("gep", VNum (Int 0))].

(** [start] and [end_] are dates: ordinals run from 1 to [MAXORDINAL]
    (only these two bounds matter below). *)
Definition valid_range (start end_ : date) : Prop :=
  1 <= start /\ end_ <= MAXORDINAL.

(** How [current += timedelta(days=1)] ends on date [d], and what
    [current] is afterwards. *)
Definition advance_outcome (d : date) : outcome unit :=
  if d <? MAXORDINAL then Normal tt
  else Raised (OverflowError "date value out of range").

Definition advanced (d : date) : date :=
  if d <? MAXORDINAL then d + 1 else d.

(** ** Further notions: how each date of a range ends *)

Definition is_error (l : printer * string) : bool :=
  match fst l with
  | ErrorLine => true
  | _ => false
  end.

Definition is_report (l : printer * string) : bool :=
  match fst l with
  | ReportLine => true
  | _ => false
  end.

(** The GET returned, with a response that is not OK or has an empty
    body: the [if] of line 30 is not entered. *)
Definition unanswered (r : result response) : bool :=
  match r with
  | Ok resp => negb (ok resp && negb (String.eqb (text resp) ""))
  | Err _ => false
  end.

(** The number of such dates in a range. *)
Definition unanswered_days (start end_ : date) : nat :=
  List.length (filter (fun d => unanswered (get (url_of d))) (date_range start end_)).

(** The number of [Error ...] lines printed. *)
Definition error_count (st : state) : nat :=
  List.length (filter is_error (stdout st)).

Definition is_object (v : value) : bool :=
  match v with
  | VDict _ => true
  | _ => false
  end.

(** What [for reading in data[key]] ranges over for a day's response,
    nothing when that statement is not reached or raises. *)
Definition iterated (r : result response) : list value :=
  match parsed r with
  | Some data =>
      match contains data key with
      | Ok true =>
          match rbind (getitem data key) iter with
          | Ok readings => readings
          | Err _ => []
          end
      | _ => []
      end
  | None => []
  end.

(** ** The additions of a day, on the totals alone *)

(** [if field in reading: totals[field] += reading[field]] as a function
    of the totals: the totals with the sum stored under [field], the
    totals as they are when the record lacks the field, or the exception
    raised, nothing having been stored. *)
Definition field_added (t : list (string * number)) (reading : value)
           (field : string) : result (list (string * number)) :=
  match contains reading field with
  | Err e => Err e
  | Ok false => Ok t
  | Ok true =>
      match dict_get t field with
      | None => Err (KeyError ("'" ++ field ++ "'"))
      | Some old =>
          match getitem reading field with
          | Err e => Err e
          | Ok v =>
              match iadd old v with
              | Err e => Err e
              | Ok new => Ok (dict_set t field new)
              end
          end
      end
  end.

(** The fields [fs] of one record, in order: the totals reached, and the
    exception that stopped the walk, if any.  What was stored before the
    exception is kept. *)
Fixpoint fields_added (t : list (string * number)) (reading : value)
         (fs : list string) : list (string * number) * option exn :=
  match fs with
  | [] => (t, None)
  | f :: fs' =>
      match field_added t reading f with
      | Ok t' => fields_added t' reading fs'
      | Err e => (t, Some e)
      end
  end.

(** One record: every key of the totals, in the order of the dict. *)
Definition reading_added (t : list (string * number)) (reading : value)
  : list (string * number) * option exn :=
  fields_added t reading (dict_keys t).

(** The records of a day, in order. *)
Fixpoint readings_added (t : list (string * number)) (rs : list value)
  : list (string * number) * option exn :=
  match rs with
  | [] => (t, None)
  | r :: rs' =>
      match reading_added t r with
      | (t', None) => readings_added t' rs'
      | (t', Some e) => (t', Some e)
      end
  end.

(** How a walk that stopped on [o] ends. *)
Definition outcome_of (o : option exn) : outcome unit :=
  match o with
  | None => Normal tt
  | Some e => Raised e
  end.

(** The record holds something under [field] that cannot be added to a
    number. *)
Definition not_addable (kv : list (string * value)) (field : string) : bool :=
  match dict_get kv field with
  | Some v => negb (is_number v)
  | None => false
  end.

(** ** Texts, written out *)

(** A number below 100 on two digits. *)
Definition two_digits (z : Z) : string :=
  (if z <? 10 then "0" else "") ++ str_of_Z z.

(** A date as year, month and day of the month joined by dashes, the
    year as it stands, month and day on two digits. *)
Definition iso_text (d : date) : string :=
  str_of_Z (year_of d) ++ "-" ++ two_digits (month_of d) ++ "-"
  ++ two_digits (day_of d).

(** The English name of a month. *)
Definition month_word (m : Z) : string :=
  match m with
  | 1 => "January" | 2 => "February" | 3 => "March" | 4 => "April"
  | 5 => "May" | 6 => "June" | 7 => "July" | 8 => "August"
  | 9 => "September" | 10 => "October" | 11 => "November" | 12 => "December"
  | _ => ""
  end.

(** The progress line for a date, written out: the name of its month,
    its year, and the count. *)
Definition progress_text (d : date) (n : Z) : string :=
  month_word (month_of d) ++ " " ++ str_of_Z (year_of d)
  ++ "... (" ++ str_of_Z n ++ " days)".

(** The error line for a date and the text of an exception. *)
Definition error_text (d : date) (msg : string) : string :=
  "Error " ++ iso_text d ++ ": " ++ msg.

(** The URL requested for a date. *)
Definition url_text (d : date) : string :=
  "https://s18.myenergi.net/cgi-jday-Z21962448-" ++ iso_text d.

(** The header line of the report. *)
Definition header_line (n : Z) : printer * string :=
  (ReportLine, newline ++ "=== 2025 Totals (" ++ str_of_Z n ++ " days) ===").

(** The script ended normally or on an [OverflowError]. *)
Definition normal_or_overflow (o : outcome unit) : Prop :=
  o = Normal tt \/ exists msg, o = Raised (OverflowError msg).

End Session.

End Fetch2025.

(* ===================================================================== *)
(** * [test_myenergi.py] *)
(* ===================================================================== *)

Module TestMyenergi.

Import Py Http Script.
Local Open Scope script_scope.

(** What a [print] was given: a text, or a decoded body (shown as its
    [repr]). *)
Inductive output :=
| Text (s : string)
| Repr (v : value).

Record state := mk_state {
  stdout : list output;
  requests : list string
}.

Definition print (o : output) : M state unit :=
  modify (fun st => mk_state (stdout st ++ [o]) (requests st)).

Definition initial : state := mk_state [] [].

(** The truth value of what [os.environ.get] gave: [None] and the empty
    string are false. *)
Definition truthy (o : option string) : bool :=
  match o with
  | Some s => negb (String.eqb s "")
  | None => false
  end.

Definition DIRECTOR_URL : string := "https://director.myenergi.net/cgi-jstatus-*".
Definition ASN_HEADER : string := "x_myenergi-asn".

Section Probe.

(** [os.environ.get]. *)
Variable environ : string -> option string.

(** The session: what the [n]-th [session.get] of the run does for a URL
    ([n] counted from 0). *)
Variable get : nat -> string -> result response.

Definition session_get (url : string) : M state response :=
  fun st =>
    let st' := mk_state (stdout st) (requests st ++ [url]) in
    match get (List.length (requests st)) url with
    | Ok r => (Normal r, st')
    | Err e => (Raised e, st')
    end.

(** [resp.headers[name]]. *)
Definition header_item (resp : response) (name : string) : M state string :=
  match header_get (headers resp) name with
  | Some v => ret v
  | None => raise (KeyError ("'" ++ name ++ "'"))
  end.

Definition probe : M state unit :=
  let SERIAL := environ "MYENERGI_SERIAL" in
  let API_KEY := environ "MYENERGI_API_KEY" in
  (if negb (truthy SERIAL) || negb (truthy API_KEY) then
     print (Text "Set MYENERGI_SERIAL and MYENERGI_API_KEY environment variables") ;;
     exit 1
   else ret tt) ;;
  resp <- session_get DIRECTOR_URL ;;
  resp <- (if header_in ASN_HEADER (headers resp) then
             server <- header_item resp ASN_HEADER ;;
             session_get ("https://" ++ server ++ "/cgi-jstatus-*")
           else ret resp) ;;
  body <- lift (json resp) ;;
  print (Repr body).

(** The script, from nothing printed and nothing requested. *)
Definition test_myenergi : outcome unit * state := probe initial.

End Probe.

End TestMyenergi.


(* ===================================================================== *)
(** * Sample sessions and environments *)
(* ===================================================================== *)

Module Samples.

Import Py Datetime Http Script.

Definition jan1 : date := mkdate 2025 1 1.
Definition jan2 : date := mkdate 2025 1 2.
Definition jan3 : date := mkdate 2025 1 3.

(** An OK response whose body decodes to [data]. *)
Definition ok_response (data : value) : response :=
  mk_response true "{...}" (Ok data) [].

(** An OK response with [readings] under the per-device key. *)
Definition day_of_readings (readings : list value) : response :=
  ok_response (VDict [(Fetch2025.key, VList readings)]).

Definition null_exp_reading : value := VDict [("exp", VNone)].
Definition imp_reading (z : Z) : value := VDict [("imp", VNum (Int z))].

(** One good day, one day whose GET fails, one day that breaks after
    its first addition, and empty bodies from then on. *)
Definition mixed_get (url : string) : result response :=
  if String.eqb url (Fetch2025.url_of jan1) then
    Ok (day_of_readings [Fetch2025.one_kwh_reading])
  else if String.eqb url (Fetch2025.url_of jan2) then
    Err (mk_exn "ConnectionError" "connection refused")
  else if String.eqb url (Fetch2025.url_of jan3) then
    Ok (day_of_readings [VDict [("imp", VNum (Int 5)); ("exp", VNone)]])
  else Ok (mk_response true "" (Err (mk_exn "JSONDecodeError" "Expecting value")) []).

(** Every day answers with an object that lacks the per-device key. *)
Definition keyless_get (url : string) : result response :=
  Ok (ok_response (VDict [])).

(** Two days that raise while their records are added: the first before
    its integer is reached, the second after. *)
Definition ragged_get (url : string) : result response :=
  if String.eqb url (Fetch2025.url_of jan1) then
    Ok (day_of_readings [null_exp_reading; imp_reading 5])
  else
    Ok (day_of_readings [imp_reading 7; null_exp_reading]).

(** Every day answers with the same two well-formed readings, except
    the second of January, whose GET fails. *)
Definition tidy_get (url : string) : result response :=
  if String.eqb url (Fetch2025.url_of jan2) then
    Err (mk_exn "Timeout" "timed out")
  else Ok (day_of_readings [Fetch2025.one_kwh_reading; imp_reading 5]).

(** Both variables set. *)
Definition full_environ (name : string) : option string :=
  if String.eqb name "MYENERGI_SERIAL" then Some "12345678"
  else if String.eqb name "MYENERGI_API_KEY" then Some "secret"
  else None.

(** Both variables set, the serial to the empty string. *)
Definition blank_serial_environ (name : string) : option string :=
  if String.eqb name "MYENERGI_SERIAL" then Some ""
  else if String.eqb name "MYENERGI_API_KEY" then Some "secret"
  else None.

(** The director names a server; the server answers with its status. *)
Definition director_response : response :=
  mk_response true "{}" (Ok (VDict [("director", VBool true)]))
              [("Content-Type", "application/json");
               ("X_MYENERGI-asn", "s18.myenergi.net")].

Definition status_response : response :=
  mk_response true "{}" (Ok (VDict [("zappi", VList [])])) [].

Definition redirecting_get (n : nat) (url : string) : result response :=
  match n with
  | O => Ok director_response
  | _ => Ok status_response
  end.

Definition jan4 : date := mkdate 2025 1 4.

(** As [mixed_get] on the first three days of January, a refusal
    everywhere else. *)
Definition mixed_then_down_get (url : string) : result response :=
  if String.eqb url (Fetch2025.url_of jan1) then mixed_get url
  else if String.eqb url (Fetch2025.url_of jan2) then mixed_get url
  else if String.eqb url (Fetch2025.url_of jan3) then mixed_get url
  else Err (mk_exn "ConnectionError" "connection refused").

(** A server error with a body, an empty body, and a day whose readings
    come as one object instead of a list of objects. *)
Definition shapes_get (url : string) : result response :=
  if String.eqb url (Fetch2025.url_of jan1) then
    Ok (mk_response false "{...}"
          (Ok (VDict [(Fetch2025.key, VList [Fetch2025.one_kwh_reading])])) [])
  else if String.eqb url (Fetch2025.url_of jan2) then
    Ok (mk_response true "" (Err (mk_exn "JSONDecodeError" "Expecting value")) [])
  else
    Ok (ok_response (VDict [(Fetch2025.key, VDict [("gen", VNum (Int 9))])])).

(** A reading with fields the script does not track. *)
Definition busy_reading : list (string * value) :=
  [("min", VNum (Int 3)); ("imp", VNum (Int 12)); ("dow", VStr "Mon");
   ("gep", VNum (Int 4))].

Definition plain_reading : list (string * value) :=
  [("gep", VNum (Int 4)); ("imp", VNum (Int 12))].

(** The director answers without naming a server. *)
Definition plain_director_response : response :=
  mk_response true "{}" (Ok (VDict [("director", VBool true)]))
              [("Content-Type", "application/json")].

Definition direct_get (n : nat) (url : string) : result response :=
  Ok plain_director_response.

(** The director cannot be reached. *)
Definition down_get (n : nat) (url : string) : result response :=
  Err (mk_exn "ConnectionError" "connection refused").

(** Four days that raise while their records are added: at a field
    after the second, at a record that is no object, on an integer too
    large for a float, and on totals that have become floats. *)
Definition broken_get (url : string) : result response :=
  if String.eqb url (Fetch2025.url_of jan1) then
    Ok (day_of_readings
          [VDict [("imp", VNum (Int 7)); ("exp", VNum (Int 2));
                  ("gep", VStr "n/a"); ("gen", VNum (Int 9))]])
  else if String.eqb url (Fetch2025.url_of jan2) then
    Ok (day_of_readings [imp_reading 1; VNum (Int 5); imp_reading 100])
  else if String.eqb url (Fetch2025.url_of jan3) then
    Ok (day_of_readings
          [VDict [("h1d", VNum (Int (10 ^ 400)))];
           VDict [("imp", VNum (Int 1));
                  ("h1d", VNum (Float (S754_finite false 4503599627370496 (-53))))]])
  else
    Ok (day_of_readings
          [VDict [("imp", VNum (Float (S754_finite false 4503599627370496 (-53))))];
           VDict [("imp", VNum (Int 2)); ("gen", VNone); ("h1b", VNum (Int 2))]]).

(** One reading a day: 1.5 kWh imported, 0.34 kWh exported and 2.5 kWh
    generated on the first of January; afterwards ten times the export
    and 0.4 kWh generated. *)
Definition spread_get (url : string) : result response :=
  if String.eqb url (Fetch2025.url_of jan1) then
    Ok (day_of_readings
          [VDict [("imp", VNum (Int 5400000)); ("exp", VNum (Int 1234567));
                  ("gep", VNum (Int 9000000))]])
  else
    Ok (day_of_readings
          [VDict [("imp", VNum (Int 5400000)); ("exp", VNum (Int 12345670));
                  ("gep", VNum (Int 1500000))]]).

End Samples.

(* ===================================================================== *)
(** * Facts about the Python operations *)
(* ===================================================================== *)

Module PyFacts.

Import Py Datetime.
Local Open Scope Z_scope.




(** Some figures as the report shows them, the halves among them. *)
Example format_kwh_samples :
  map (fun z => match truediv (Int z) 3600000 with
                | Ok q => format_1f q
                | Err _ => "error"%string
                end)
      [0; 3600000; 180000; 179999; 540000; 900000; -180000; -1; 12345678901234]
  = [ "0.0"; "1.0"; "0.1"; "0.0"; "0.1"; "0.2"; "-0.1"; "-0.0"; "3429355.3" ]%string.
Proof. vm_compute. reflexivity. Qed.

(** Ints beyond the floats. *)
Example float_of_int_limits :
  float_of_int (2 ^ 1024 - 2 ^ 970 - 1) = Ok (S754_finite false 9007199254740991 971)
  /\ float_of_int (2 ^ 1024 - 2 ^ 970)
     = Err (OverflowError "int too large to convert to float").
Proof. vm_compute. split; reflexivity. Qed.

(** The year 2025, day by day: ordinals and dates agree. *)
Example calendar_2025 :
  mkdate 2025 1 1 = 739252 /\ mkdate 2025 12 31 = 739616
  /\ forallb (fun i => let d := mkdate 2025 1 1 + Z.of_nat i in
                       (ymd2ord (year_of d) (month_of d) (day_of d) =? d)
                       && (year_of d =? 2025)
                       && (1 <=? day_of d) && (day_of d <=? days_in_month 2025 (month_of d)))
             (seq 0 365) = true.
Proof. vm_compute. repeat split. Qed.

Example calendar_corners :
  map strftime_Ymd [mkdate 1 1 1; mkdate 2000 2 29; mkdate 1900 3 1;
                    mkdate 2024 12 31; MAXORDINAL]
  = [ "1-01-01"; "2000-02-29"; "1900-03-01"; "2024-12-31"; "9999-12-31" ]%string.
Proof. vm_compute. reflexivity. Qed.

(** ** Month and day of the month *)

(** The month and the day that [ord2ymd] reads off the day [n] of a
    year (counted from 0), leap or not. *)
Lemma month_day_in_bounds (n : Z) (leapyear : bool) :
  0 <= n < 365 ->
  let month := Z.shiftr (n + 50) 5 in
  let preceding :=
    nth (Z.to_nat month) DAYS_BEFORE_MONTH 0
    + (if (2 <? month) && leapyear then 1 else 0) in
  let md :=
    if n <? preceding then
      (month - 1,
       n - (preceding - (nth (Z.to_nat (month - 1)) DAYS_IN_MONTH 0
                         + (if (month - 1 =? 2) && leapyear then 1 else 0))) + 1)
    else (month, n - preceding + 1) in
  1 <= fst md <= 12 /\ 1 <= snd md <= 31.
Proof.
  intro Hn.
  assert (H : forallb
                (fun k =>
                   forallb
                     (fun leap =>
                        let n := Z.of_nat k in
                        let month := Z.shiftr (n + 50) 5 in
                        let preceding :=
                          nth (Z.to_nat month) DAYS_BEFORE_MONTH 0
                          + (if (2 <? month) && leap then 1 else 0) in
                        let md :=
                          if n <? preceding then
                            (month - 1,
                             n - (preceding
                                  - (nth (Z.to_nat (month - 1)) DAYS_IN_MONTH 0
                                     + (if (month - 1 =? 2) && leap then 1 else 0))) + 1)
                          else (month, n - preceding + 1) in
                        (1 <=? fst md) && (fst md <=? 12)
                        && (1 <=? snd md) && (snd md <=? 31))
                     [true; false])
                (seq 0 365) = true) by (vm_compute; reflexivity).
  rewrite forallb_forall in H.
  specialize (H (Z.to_nat n)). rewrite in_seq in H.
  specialize (H ltac:(lia)). rewrite forallb_forall in H.
  specialize (H leapyear ltac:(destruct leapyear; simpl; auto)).
  rewrite Z2Nat.id in H by lia. cbv zeta in H |- *.
  rewrite !andb_true_iff, !Z.leb_le in H. lia.
Qed.

Lemma ord2ymd_in_bounds (d : date) :
  1 <= month_of d <= 12 /\ 1 <= day_of d <= 31.
Proof.
  unfold month_of, day_of, ord2ymd. cbv zeta.
  set (n := (((d - 1) mod DI400Y) mod DI100Y) mod DI4Y mod 365).
  assert (Hn : 0 <= n < 365) by (apply Z.mod_pos_bound; lia).
  destruct (_ || _); [simpl; lia |].
  set (leapyear := (_ / 365 =? 3) && _).
  pose proof (month_day_in_bounds n leapyear Hn) as H. cbv zeta in H.
  destruct (n <? _); exact H.
Qed.

(** ** Ordinals and dates of the calendar *)

Lemma all_from_spec (p : Z -> bool) (k : nat) :
  forall n, all_from k n p = true ->
            forall i, n <= i < n + Z.of_nat k -> p i = true.
Proof.
  induction k as [| k IH]; intros n H i Hi; [lia |].
  cbn [all_from] in H. apply andb_prop in H. destruct H as [Hn Hk].
  destruct (Z.eq_dec i n) as [-> | Hne]; [exact Hn |].
  apply (IH (n + 1) Hk). lia.
Qed.

(** The first four hundred years, day by day. *)
Lemma first_cycle_checked (n : Z) : 1 <= n <= DI400Y -> date_checked n = true.
Proof.
  intro Hn.
  assert (H : all_from (Z.to_nat DI400Y) 1 date_checked = true)
    by (vm_compute; reflexivity).
  apply (all_from_spec date_checked _ 1 H).
  rewrite Z2Nat.id by (unfold DI400Y; lia). lia.
Qed.

Lemma is_leap_cycle (y k : Z) : is_leap (y + 400 * k) = is_leap y.
Proof.
  unfold is_leap.
  replace (y + 400 * k) with (y + (100 * k) * 4) at 1 by lia.
  replace (y + 400 * k) with (y + (4 * k) * 100) at 1 by lia.
  replace (y + 400 * k) with (y + k * 400) by lia.
  rewrite !Z.mod_add by lia. reflexivity.
Qed.

Lemma days_in_month_cycle (y m k : Z) :
  days_in_month (y + 400 * k) m = days_in_month y m.
Proof. unfold days_in_month. rewrite is_leap_cycle. reflexivity. Qed.

Lemma ymd2ord_cycle (y m d k : Z) :
  ymd2ord (y + 400 * k) m d = ymd2ord y m d + DI400Y * k.
Proof.
  unfold ymd2ord, days_before_year, days_before_month, DI400Y.
  rewrite is_leap_cycle. cbv zeta.
  replace ((y + 400 * k - 1) / 4) with ((y - 1) / 4 + 100 * k)
    by (rewrite <- Z.div_add by lia; f_equal; lia).
  replace ((y + 400 * k - 1) / 100) with ((y - 1) / 100 + 4 * k)
    by (rewrite <- Z.div_add by lia; f_equal; lia).
  replace ((y + 400 * k - 1) / 400) with ((y - 1) / 400 + k)
    by (rewrite <- Z.div_add by lia; f_equal; lia).
  lia.
Qed.

Lemma ord2ymd_cycle (n k : Z) :
  ord2ymd (n + DI400Y * k)
  = (year_of n + 400 * k, month_of n, day_of n).
Proof.
  unfold year_of, month_of, day_of, ord2ymd. cbv zeta.
  replace (n + DI400Y * k - 1) with (n - 1 + k * DI400Y) by lia.
  rewrite Z.div_add, Z.mod_add by (unfold DI400Y; lia).
  destruct (_ || _); [cbn [fst snd]; f_equal; f_equal; lia |].
  destruct (_ <? _); cbn [fst snd]; f_equal; f_equal; lia.
Qed.

(** Year, month and day read off any ordinal from 1 on are a date of the
    calendar, and [ymd2ord] gives the ordinal back. *)
Lemma ord2ymd_sound (n : date) :
  1 <= n ->
  ymd2ord (year_of n) (month_of n) (day_of n) = n
  /\ 1 <= year_of n /\ 1 <= month_of n <= 12
  /\ 1 <= day_of n <= days_in_month (year_of n) (month_of n).
Proof.
  intro Hn.
  set (k := (n - 1) / DI400Y). set (r := (n - 1) mod DI400Y + 1).
  assert (Hr : 1 <= r <= DI400Y).
  { pose proof (Z.mod_pos_bound (n - 1) DI400Y ltac:(unfold DI400Y; lia)).
    unfold r. lia. }
  assert (Hk : 0 <= k) by (apply Z.div_pos; unfold DI400Y; lia).
  assert (En : n = r + DI400Y * k).
  { pose proof (Z.div_mod (n - 1) DI400Y ltac:(unfold DI400Y; lia)).
    unfold r, k. lia. }
  pose proof (first_cycle_checked r Hr) as Hc.
  unfold date_checked in Hc.
  pose proof (ord2ymd_cycle r k) as Hy. rewrite <- En in Hy.
  unfold year_of, month_of, day_of in *.
  destruct (ord2ymd r) as [[y m] d]. rewrite Hy. cbn [fst snd] in *.
  rewrite !andb_true_iff, !Z.leb_le, Z.eqb_eq in Hc.
  rewrite ymd2ord_cycle, days_in_month_cycle. lia.
Qed.

Lemma zfill_two (z : Z) : 0 <= z < 100 -> zfill 2 z = Fetch2025.two_digits z.
Proof.
  intro Hz.
  assert (H : forallb (fun k => String.eqb (zfill 2 (Z.of_nat k)) (Fetch2025.two_digits (Z.of_nat k)))
                      (seq 0 100) = true) by (vm_compute; reflexivity).
  rewrite forallb_forall in H. specialize (H (Z.to_nat z)).
  rewrite in_seq, Z2Nat.id in H by lia. apply String.eqb_eq, H. lia.
Qed.

(** ** True division by 3,600,000 rounds to the nearest float *)








Lemma even_or_next (m : Z) :
  Z.even (if Z.even m then m else m + 1) = true.
Proof.
  destruct (Z.even m) eqn:E; [exact E |].
  rewrite Z.even_add, E. reflexivity.
Qed.







End PyFacts.

(* ===================================================================== *)
(** * Facts about running scripts *)
(* ===================================================================== *)

Module ScriptFacts.

Import Py Script.

Section Preservation.

Context {S : Type}.
Variable R : S -> S -> Prop.
Hypothesis R_refl : forall st, R st st.
Hypothesis R_trans : forall a b c, R a b -> R b c -> R a c.

Lemma keeps_ret {A} (a : A) : keeps R (ret a).
Proof. intro st; simpl; auto. Qed.

Lemma keeps_raise {A} (e : exn) : keeps R (@raise S A e).
Proof. intro st; simpl; auto. Qed.

Lemma keeps_lift {A} (r : result A) : keeps R (lift r).
Proof. destruct r; [apply keeps_ret | apply keeps_raise]. Qed.

Lemma keeps_gets {A} (f : S -> A) : keeps R (gets f).
Proof. intro st; simpl; auto. Qed.

Lemma keeps_bind {A B} (m : M S A) (k : A -> M S B) :
  keeps R m -> (forall a, keeps R (k a)) -> keeps R (bind m k).
Proof.
  intros Hm Hk st. unfold bind.
  destruct (Hm st) as [Hs Hr].
  destruct (m st) as [[a | e | c | ] st1]; simpl in *; try tauto.
  destruct (Hk a st1) as [Hs' Hr'].
  split; [assumption | eapply R_trans; eassumption].
Qed.

Lemma keeps_for_each {A} (xs : list A) (body : A -> M S unit) :
  (forall x, keeps R (body x)) -> keeps R (for_each xs body).
Proof.
  intro Hb. induction xs as [| x rest IH]; simpl.
  - apply keeps_ret.
  - apply keeps_bind; [apply Hb | intros _; exact IH].
Qed.

End Preservation.

(** A [for] over two lists on end is the two [for]s in a row. *)
Lemma for_each_app {S A} (xs ys : list A) (body : A -> M S unit) (st : S) :
  for_each (xs ++ ys) body st
  = bind (for_each xs body) (fun _ => for_each ys body) st.
Proof.
  revert st. induction xs as [| x xs IH]; intro st; simpl.
  - reflexivity.
  - unfold bind.
    destruct (body x st) as [[[] | e | c |] st1]; try reflexivity.
    rewrite IH. reflexivity.
Qed.

End ScriptFacts.

(* ===================================================================== *)
(** * Facts about [fetch_2025.py] *)
(* ===================================================================== *)

Module Fetch2025Facts.

Import Py Datetime Http Script PyFacts ScriptFacts Fetch2025.
Local Open Scope Z_scope.
Local Open Scope list_scope.

Create HintDb fetch.

(** Closed comparisons of dates. *)
Ltac by_computing :=
  unfold valid_range; vm_compute; repeat split; first [discriminate | reflexivity].

(** ** Dictionaries *)

Lemma existsb_keys {V} (kv : list (string * V)) (k : string) :
  existsb (String.eqb k) (dict_keys kv)
  = match dict_get kv k with Some _ => true | None => false end.
Proof.
  induction kv as [| [k' v] rest IH]; simpl; [reflexivity |].
  rewrite (String.eqb_sym k k').
  destruct (String.eqb k' k); simpl; [reflexivity | exact IH].
Qed.

Lemma dict_set_keys {V} (kv : list (string * V)) (k : string) (v v' : V) :
  dict_get kv k = Some v -> dict_keys (dict_set kv k v') = dict_keys kv.
Proof.
  induction kv as [| [k' w] rest IH]; simpl; [discriminate |].
  destruct (String.eqb k' k); simpl; [reflexivity |].
  intro H. f_equal. apply IH, H.
Qed.

Lemma state_eta (st : state) :
  mk_state (totals st) (days_processed st) (current st) (stdout st) (requests st) = st.
Proof. destruct st; reflexivity. Qed.

(** ** Adding readings touches the values of [totals] only *)

Lemma acc_frame_refl st : acc_frame st st.
Proof. unfold acc_frame; tauto. Qed.

Lemma acc_frame_trans a b c : acc_frame a b -> acc_frame b c -> acc_frame a c.
Proof.
  unfold acc_frame.
  intros (H1 & H2 & H3 & H4 & H5) (K1 & K2 & K3 & K4 & K5).
  repeat split; congruence.
Qed.

#[local] Hint Resolve acc_frame_refl acc_frame_trans : fetch.

Lemma add_field_keeps reading field : keeps acc_frame (add_field reading field).
Proof.
  intro st. unfold add_field, bind, lift, totals_get, modify, ret, raise.
  destruct (contains reading field) as [[|] | e]; simpl; auto with fetch.
  destruct (dict_get (totals st) field) as [old |] eqn:Hold; simpl; auto with fetch.
  destruct (getitem reading field) as [v | e]; simpl; auto with fetch.
  destruct (iadd old v) as [new | e]; simpl; auto with fetch.
  split; [exact I |].
  unfold acc_frame; simpl. repeat split.
  eapply dict_set_keys; eassumption.
Qed.

Lemma add_reading_keeps reading : keeps acc_frame (add_reading reading).
Proof.
  unfold add_reading.
  apply keeps_bind; eauto with fetch.
  - apply keeps_gets; auto with fetch.
  - intro fs. apply keeps_for_each; eauto with fetch.
    intro f. apply add_field_keeps.
Qed.

Lemma readings_keep readings : keeps acc_frame (for_each readings add_reading).
Proof.
  apply keeps_for_each; eauto with fetch. exact add_reading_keeps.
Qed.

(** ** The texts of the script, written out *)

Lemma strftime_Ymd_text (d : date) : strftime_Ymd d = iso_text d.
Proof.
  destruct (ord2ymd_in_bounds d) as [Hm Hd].
  unfold strftime_Ymd, iso_text. rewrite !zfill_two by lia. reflexivity.
Qed.

Lemma month_name_word (m : Z) : 1 <= m <= 12 -> month_name m = month_word m.
Proof.
  intro H.
  assert (Hc : m = 1 \/ m = 2 \/ m = 3 \/ m = 4 \/ m = 5 \/ m = 6 \/ m = 7
               \/ m = 8 \/ m = 9 \/ m = 10 \/ m = 11 \/ m = 12) by lia.
  repeat (destruct Hc as [-> | Hc]; [reflexivity |]). subst. reflexivity.
Qed.

Lemma string_app_assoc (a b c : string) :
  ((a ++ b) ++ c = a ++ (b ++ c))%string.
Proof. induction a as [| x a IH]; simpl; [reflexivity | rewrite IH; reflexivity]. Qed.

Lemma progress_line_text (d : date) (n : Z) :
  progress_line d n = (ProgressLine, progress_text d n).
Proof.
  unfold progress_line, progress_text, strftime_BY.
  rewrite month_name_word by apply ord2ymd_in_bounds.
  rewrite !string_app_assoc. reflexivity.
Qed.

Lemma error_line_text (d : date) (e : exn) :
  error_line d e = (ErrorLine, error_text d (exn_str e)).
Proof. unfold error_line, error_text. rewrite strftime_Ymd_text. reflexivity. Qed.

Lemma url_of_text (d : date) : url_of d = url_text d.
Proof. unfold url_of, day_url, url_text. rewrite strftime_Ymd_text. reflexivity. Qed.

(** ** Integer totals *)

Lemma dict_keys_tot (t : string -> Z) : dict_keys (tot t) = fields.
Proof. reflexivity. Qed.

Lemma tot_ext (t t' : string -> Z) :
  (forall f, In f fields -> t f = t' f) -> tot t = tot t'.
Proof.
  intro H. unfold tot. apply map_ext_in. intros f Hf. rewrite (H f Hf). reflexivity.
Qed.

Ltac each_field H :=
  unfold fields in H; simpl in H;
  repeat (destruct H as [H | H]; [subst |]); [.. | contradiction].

Lemma dict_get_tot (t : string -> Z) (f : string) :
  In f fields -> dict_get (tot t) f = Some (Int (t f)).
Proof. intro H. each_field H; reflexivity. Qed.

Lemma dict_set_tot (t : string -> Z) (f : string) (z : Z) :
  In f fields ->
  dict_set (tot t) f (Int z) = tot (fun g => if String.eqb g f then z else t g).
Proof. intro H. each_field H; reflexivity. Qed.

Lemma NoDup_fields : NoDup fields.
Proof.
  unfold fields; simpl.
  repeat (constructor; [simpl; intuition discriminate |]). constructor.
Qed.

Lemma set_totals_same (st : state) (ts : list (string * number)) :
  totals st = ts -> set_totals ts st = st.
Proof. intros <-. destruct st; reflexivity. Qed.

Lemma set_totals_twice (st : state) (ts ts' : list (string * number)) :
  set_totals ts' (set_totals ts st) = set_totals ts' st.
Proof. reflexivity. Qed.

Lemma field_value_present kv f z :
  dict_get kv f = Some (VNum (Int z)) -> field_value f (VDict kv) = z.
Proof. intro H. simpl. rewrite H. reflexivity. Qed.

Lemma field_value_missing kv f :
  dict_get kv f = None -> field_value f (VDict kv) = 0.
Proof. intro H. simpl. rewrite H. reflexivity. Qed.

(** One tracked field of a well-formed record is added to its total. *)
Lemma add_field_ok kv f t st :
  In f fields -> totals st = tot t -> field_ok kv f = true ->
  add_field (VDict kv) f st
  = (Normal tt,
     set_totals (tot (fun g => if String.eqb g f
                               then t g + field_value g (VDict kv) else t g)) st).
Proof.
  intros Hf Ht Hok. unfold field_ok in Hok.
  unfold add_field, bind, lift, totals_get, modify, ret, raise.
  cbn [contains getitem]. rewrite existsb_keys.
  destruct (dict_get kv f) as [[| | [z |] | | |] |] eqn:E; try discriminate.
  - rewrite Ht, dict_get_tot by assumption. cbn [iadd num_add].
    rewrite Ht, dict_set_tot by assumption.
    do 2 f_equal. apply tot_ext. intros g _.
    destruct (String.eqb_spec g f) as [-> | _]; [| reflexivity].
    rewrite (field_value_present _ _ _ E). reflexivity.
  - f_equal. symmetry. apply set_totals_same. rewrite Ht.
    apply tot_ext. intros g _.
    destruct (String.eqb_spec g f) as [-> | _]; [| reflexivity].
    rewrite (field_value_missing _ _ E). lia.
Qed.

Lemma add_fields_ok kv fs :
  NoDup fs -> (forall f, In f fs -> In f fields) ->
  (forall f, In f fs -> field_ok kv f = true) ->
  forall t st, totals st = tot t ->
    exists t',
      for_each fs (add_field (VDict kv)) st = (Normal tt, set_totals (tot t') st)
      /\ forall g, t' g = if existsb (String.eqb g) fs
                          then t g + field_value g (VDict kv) else t g.
Proof.
  induction 1 as [| f fs Hnin Hnd IH]; intros Hin Hok t st Ht.
  - exists t. split; [| reflexivity].
    simpl. unfold ret. f_equal. symmetry. apply set_totals_same, Ht.
  - cbn [for_each]. unfold bind at 1.
    rewrite (add_field_ok kv f t st) by (auto; apply Hin || apply Hok; now left).
    set (t1 := fun g => if String.eqb g f then t g + field_value g (VDict kv) else t g).
    destruct (IH (fun g H => Hin g (or_intror H)) (fun g H => Hok g (or_intror H))
                 t1 (set_totals (tot t1) st) eq_refl) as (t' & Hrun & Ht').
    exists t'. split; [rewrite Hrun; reflexivity |].
    intro g. rewrite Ht'. unfold t1. cbn [existsb].
    destruct (String.eqb_spec g f) as [-> | Hne]; cbn [orb]; [| reflexivity].
    destruct (existsb (String.eqb f) fs) eqn:E; [| reflexivity].
    exfalso. apply Hnin. apply existsb_exists in E. destruct E as (x & Hx & Heq).
    apply String.eqb_eq in Heq. subst. exact Hx.
Qed.

Lemma add_reading_ok reading t st :
  reading_ok reading = true -> totals st = tot t ->
  add_reading reading st
  = (Normal tt, set_totals (tot (fun g => t g + field_value g reading)) st).
Proof.
  intros Hok Ht. destruct reading as [| | | | | kv]; try discriminate.
  cbn [reading_ok] in Hok. rewrite forallb_forall in Hok.
  unfold add_reading, bind, gets. rewrite Ht, dict_keys_tot.
  destruct (add_fields_ok kv fields NoDup_fields (fun f H => H) Hok t st Ht)
    as (t' & -> & Ht').
  do 2 f_equal. apply tot_ext. intros g Hg. rewrite Ht'.
  replace (existsb (String.eqb g) fields) with true; [reflexivity |].
  symmetry. apply existsb_exists. exists g. split; [exact Hg | apply String.eqb_refl].
Qed.

Lemma readings_ok readings :
  forallb reading_ok readings = true ->
  forall t st, totals st = tot t ->
    for_each readings add_reading st
    = (Normal tt,
       set_totals (tot (fun g => t g + sumZ (map (field_value g) readings))) st).
Proof.
  induction readings as [| r rs IH]; intros Hok t st Ht.
  - simpl. unfold ret. f_equal. symmetry. apply set_totals_same. rewrite Ht.
    apply tot_ext. intros; lia.
  - cbn [forallb] in Hok. apply andb_prop in Hok. destruct Hok as [Hr Hrs].
    cbn [for_each]. unfold bind. rewrite (add_reading_ok r t st Hr Ht).
    rewrite (IH Hrs (fun g => t g + field_value g r)
                (set_totals (tot (fun g => t g + field_value g r)) st) eq_refl).
    rewrite set_totals_twice. do 2 f_equal. apply tot_ext. intros g _.
    simpl. lia.
Qed.

(** ** The additions of a day, on the totals alone *)

Lemma add_field_added (r : value) (f : string) (st : state) :
  add_field r f st
  = match field_added (totals st) r f with
    | Ok t' => (Normal tt, set_totals t' st)
    | Err e => (Raised e, st)
    end.
Proof.
  unfold add_field, field_added, bind, lift, totals_get, modify, ret, raise.
  destruct (contains r f) as [[|] | e]; [| | reflexivity].
  - destruct (dict_get (totals st) f) as [old |]; [| reflexivity].
    destruct (getitem r f) as [v | e]; [| reflexivity].
    destruct (iadd old v) as [new | e]; reflexivity.
  - f_equal. symmetry. apply set_totals_same. reflexivity.
Qed.

Lemma add_fields_added (r : value) (fs : list string) :
  forall st,
    for_each fs (add_field r) st
    = (outcome_of (snd (fields_added (totals st) r fs)),
       set_totals (fst (fields_added (totals st) r fs)) st).
Proof.
  induction fs as [| f fs IH]; intro st.
  - cbn [for_each fields_added fst snd outcome_of]. unfold ret. f_equal.
    symmetry. apply set_totals_same. reflexivity.
  - cbn [for_each fields_added]. unfold bind. rewrite add_field_added.
    destruct (field_added (totals st) r f) as [t' | e].
    + rewrite IH. cbn [totals set_totals]. reflexivity.
    + cbn [fst snd outcome_of]. f_equal. symmetry. apply set_totals_same. reflexivity.
Qed.

Lemma add_reading_added (r : value) (st : state) :
  add_reading r st
  = (outcome_of (snd (reading_added (totals st) r)),
     set_totals (fst (reading_added (totals st) r)) st).
Proof.
  unfold add_reading, reading_added, bind, gets. apply add_fields_added.
Qed.

Lemma add_readings_added (rs : list value) :
  forall st,
    for_each rs add_reading st
    = (outcome_of (snd (readings_added (totals st) rs)),
       set_totals (fst (readings_added (totals st) rs)) st).
Proof.
  induction rs as [| r rs IH]; intro st.
  - cbn [for_each readings_added fst snd outcome_of]. unfold ret. f_equal.
    symmetry. apply set_totals_same. reflexivity.
  - cbn [for_each readings_added]. unfold bind. rewrite add_reading_added.
    destruct (reading_added (totals st) r) as [t' [e |]];
      cbn [fst snd outcome_of]; [reflexivity |].
    rewrite IH. cbn [totals set_totals]. reflexivity.
Qed.

Lemma dict_get_set_other {V} (kv : list (string * V)) (f g : string) (v : V) :
  f <> g -> dict_get (dict_set kv f v) g = dict_get kv g.
Proof.
  intro Hne. induction kv as [| [k w] rest IH]; simpl.
  - destruct (String.eqb_spec f g); [contradiction | reflexivity].
  - destruct (String.eqb_spec k f) as [-> | Hkf]; simpl.
    + destruct (String.eqb_spec f g); [contradiction | reflexivity].
    + destruct (String.eqb k g); [reflexivity | exact IH].
Qed.

Lemma field_added_keys t r f t' :
  field_added t r f = Ok t' -> dict_keys t' = dict_keys t.
Proof.
  unfold field_added.
  destruct (contains r f) as [[|] | e]; [| congruence | discriminate].
  destruct (dict_get t f) as [old |] eqn:E; [| discriminate].
  destruct (getitem r f) as [v | e]; [| discriminate].
  destruct (iadd old v) as [new | e]; [| discriminate].
  intro H. inversion H; subst. apply (dict_set_keys _ _ _ _ E).
Qed.

Lemma field_added_other t r f t' g :
  field_added t r f = Ok t' -> contains r g <> Ok true ->
  dict_get t' g = dict_get t g.
Proof.
  unfold field_added. intros H Hg.
  destruct (contains r f) as [[|] | e] eqn:Ec; [| congruence | discriminate].
  destruct (dict_get t f) as [old |]; [| discriminate].
  destruct (getitem r f) as [v | e]; [| discriminate].
  destruct (iadd old v) as [new | e]; [| discriminate].
  inversion H; subst. apply dict_get_set_other. intros ->. contradiction.
Qed.

Lemma fields_added_keys r fs :
  forall t, dict_keys (fst (fields_added t r fs)) = dict_keys t.
Proof.
  induction fs as [| f fs IH]; intro t; [reflexivity |].
  cbn [fields_added]. destruct (field_added t r f) as [t' | e] eqn:E; [| reflexivity].
  rewrite IH. apply (field_added_keys _ _ _ _ E).
Qed.

Lemma fields_added_other r g fs :
  contains r g <> Ok true ->
  forall t, dict_get (fst (fields_added t r fs)) g = dict_get t g.
Proof.
  intro Hg. induction fs as [| f fs IH]; intro t; [reflexivity |].
  cbn [fields_added]. destruct (field_added t r f) as [t' | e] eqn:E; [| reflexivity].
  rewrite IH. apply (field_added_other _ _ _ _ _ E Hg).
Qed.

Lemma readings_added_keys rs :
  forall t, dict_keys (fst (readings_added t rs)) = dict_keys t.
Proof.
  induction rs as [| r rs IH]; intro t; [reflexivity |].
  cbn [readings_added]. pose proof (fields_added_keys r (dict_keys t) t) as Hk.
  unfold reading_added. destruct (fields_added t r (dict_keys t)) as [t' [e |]];
    cbn [fst] in *; [exact Hk |].
  rewrite IH. exact Hk.
Qed.

Lemma readings_added_other g rs :
  (forall r, In r rs -> contains r g <> Ok true) ->
  forall t, dict_get (fst (readings_added t rs)) g = dict_get t g.
Proof.
  induction rs as [| r rs IH]; intros Hg t; [reflexivity |].
  cbn [readings_added].
  pose proof (fields_added_other r g (dict_keys t) (Hg r (or_introl eq_refl)) t) as Hk.
  unfold reading_added. destruct (fields_added t r (dict_keys t)) as [t' [e |]];
    cbn [fst] in *; [exact Hk |].
  rewrite IH by (intros r' Hr'; apply Hg; now right). exact Hk.
Qed.

Lemma fields_added_app r fs1 fs2 :
  forall t,
    fields_added t r (fs1 ++ fs2)
    = match fields_added t r fs1 with
      | (t', None) => fields_added t' r fs2
      | (t', Some e) => (t', Some e)
      end.
Proof.
  induction fs1 as [| f fs1 IH]; intro t; [reflexivity |].
  cbn [app fields_added]. destruct (field_added t r f) as [t' | e]; [apply IH | reflexivity].
Qed.

Lemma readings_added_app rs1 rs2 :
  forall t,
    readings_added t (rs1 ++ rs2)
    = match readings_added t rs1 with
      | (t', None) => readings_added t' rs2
      | (t', Some e) => (t', Some e)
      end.
Proof.
  induction rs1 as [| r rs1 IH]; intro t; [reflexivity |].
  cbn [app readings_added].
  destruct (reading_added t r) as [t' [e |]]; [reflexivity | apply IH].
Qed.

(** A walk over fields that stopped: the fields before the one that
    raised were added, and that is all. *)
Lemma fields_added_stopped r fs :
  forall t t1 e,
    fields_added t r fs = (t1, Some e) ->
    exists fs1 f fs2,
      fs = fs1 ++ f :: fs2
      /\ fields_added t r fs1 = (t1, None)
      /\ field_added t1 r f = Err e.
Proof.
  induction fs as [| f fs IH]; intros t t1 e H; [discriminate |].
  cbn [fields_added] in H. destruct (field_added t r f) as [t' | e'] eqn:E.
  - destruct (IH _ _ _ H) as (fs1 & f' & fs2 & -> & H1 & H2).
    exists (f :: fs1), f', fs2. split; [reflexivity |]. split; [| exact H2].
    cbn [fields_added]. rewrite E. exact H1.
  - inversion H; subst. exists [], f, fs. repeat split. exact E.
Qed.

(** A walk over records that stopped: the records before the one that
    raised were added in full, and of that one the fields before the
    one that raised. *)
Lemma readings_added_stopped rs :
  forall t t1 e,
    readings_added t rs = (t1, Some e) ->
    exists done r rest ta,
      rs = done ++ r :: rest
      /\ readings_added t done = (ta, None)
      /\ dict_keys ta = dict_keys t
      /\ reading_added ta r = (t1, Some e).
Proof.
  induction rs as [| r rs IH]; intros t t1 e H; [discriminate |].
  cbn [readings_added] in H.
  destruct (reading_added t r) as [t' [e' |]] eqn:E.
  - inversion H; subst. exists [], r, rs, t. repeat split. exact E.
  - destruct (IH _ _ _ H) as (done & r' & rest & ta & -> & H1 & Hk & H2).
    exists (r :: done), r', rest, ta. split; [reflexivity |].
    split; [cbn [readings_added]; rewrite E; exact H1 |].
    split; [| exact H2].
    rewrite Hk. pose proof (fields_added_keys r (dict_keys t) t) as Hk'.
    unfold reading_added in E. rewrite E in Hk'. exact Hk'.
Qed.

(** Well-formed records on integer totals. *)
Lemma readings_added_ok (rs : list value) (t : string -> Z) :
  forallb reading_ok rs = true ->
  readings_added (tot t) rs
  = (tot (fun g => t g + sumZ (map (field_value g) rs)), None).
Proof.
  intro Hok.
  pose proof (readings_ok rs Hok t (set_totals (tot t) (initial 1)) eq_refl) as H.
  rewrite add_readings_added in H. cbn [totals set_totals] in H.
  destruct (readings_added (tot t) rs) as [t' [e |]]; cbn [fst snd outcome_of] in H;
    [discriminate |].
  inversion H. reflexivity.
Qed.

Lemma fields_added_ok (kv : list (string * value)) (fs : list string)
      (t : string -> Z) :
  NoDup fs -> (forall f, In f fs -> In f fields) ->
  forallb (field_ok kv) fs = true ->
  fields_added (tot t) (VDict kv) fs
  = (tot (fun g => if existsb (String.eqb g) fs
                   then t g + field_value g (VDict kv) else t g), None).
Proof.
  intros Hnd Hin Hok. rewrite forallb_forall in Hok.
  destruct (add_fields_ok kv fs Hnd Hin Hok t (set_totals (tot t) (initial 1)) eq_refl)
    as (t' & H & Ht').
  rewrite add_fields_added in H. cbn [totals set_totals] in H.
  destruct (fields_added (tot t) (VDict kv) fs) as [t2 [e |]];
    cbn [fst snd outcome_of] in H; [discriminate |].
  inversion H. f_equal. apply tot_ext. intros g _. apply Ht'.
Qed.

Lemma field_added_not_addable (kv : list (string * value)) (f : string)
      (t : string -> Z) :
  In f fields -> not_addable kv f = true ->
  exists e, field_added (tot t) (VDict kv) f = Err e.
Proof.
  intros Hf Hbad. unfold not_addable in Hbad. unfold field_added.
  cbn [contains getitem]. rewrite existsb_keys, (dict_get_tot t f Hf).
  destruct (dict_get kv f) as [v |]; [| discriminate].
  destruct v; try discriminate; eexists; reflexivity.
Qed.

(** Well-formed records, then a record that breaks at field [f], its
    fields before [f] being well-formed: the totals reached. *)
Lemma readings_added_broken (t : string -> Z) (done rest : list value)
      (kv : list (string * value)) (fs fs' : list string) (f : string) :
  forallb reading_ok done = true ->
  fields = fs ++ f :: fs' ->
  forallb (field_ok kv) fs = true ->
  not_addable kv f = true ->
  exists e,
    readings_added (tot t) (done ++ VDict kv :: rest)
    = (tot (fun g => t g + sumZ (map (field_value g) done)
                     + (if existsb (String.eqb g) fs
                        then field_value g (VDict kv) else 0)), Some e).
Proof.
  intros Hdone Hfs Hok Hbad.
  pose proof NoDup_fields as Hnd. rewrite Hfs in Hnd.
  assert (Hin : forall g, In g fs -> In g fields).
  { intros g Hg. rewrite Hfs. apply in_or_app. now left. }
  assert (Hf : In f fields).
  { rewrite Hfs. apply in_or_app. right. now left. }
  rewrite readings_added_app, (readings_added_ok done t Hdone).
  cbn [readings_added]. unfold reading_added. rewrite dict_keys_tot, Hfs.
  rewrite fields_added_app.
  rewrite (fields_added_ok kv fs _ (NoDup_app_remove_r _ _ Hnd) Hin Hok).
  cbn [fields_added].
  destruct (field_added_not_addable kv f
              (fun g => if existsb (String.eqb g) fs
                        then t g + sumZ (map (field_value g) done)
                             + field_value g (VDict kv)
                        else t g + sumZ (map (field_value g) done)) Hf Hbad)
    as [e He].
  rewrite He. exists e. f_equal. apply tot_ext. intros g _.
  destruct (existsb (String.eqb g) fs); lia.
Qed.

Section Session.

Variable get : string -> result response.

(** What the suite of the [try] does to the globals. *)
Lemma try_suite_frame (url : string) (st : state) :
  let r := try_suite get url st in
  settled (fst r) /\
  current (snd r) = current st /\
  stdout (snd r) = stdout st /\
  requests (snd r) = requests st ++ [url] /\
  dict_keys (totals (snd r)) = dict_keys (totals st) /\
  days_processed (snd r)
  = days_processed st + (if answered (get url) && is_normal (fst r) then 1 else 0).
Proof.
  unfold try_suite, bind, session_get, answered.
  destruct (get url) as [resp | e]; simpl;
    [| repeat split; auto; lia].
  destruct (ok resp && negb (String.eqb (text resp) "")); simpl;
    [| repeat split; auto; lia].
  destruct (json resp) as [data | e]; simpl; [| repeat split; auto; lia].
  destruct (contains data key) as [present | e]; simpl; [| repeat split; auto; lia].
  destruct present.
  - destruct (rbind (getitem data key) iter) as [readings | e]; simpl;
      [| repeat split; auto; lia].
    destruct (readings_keep readings (log_request url st)) as [Hs Hf].
    destruct (for_each readings add_reading (log_request url st)) as [[[] | e | c |] st1];
      simpl in *; try contradiction;
      destruct Hf as (H1 & H2 & H3 & H4 & H5); simpl in *;
      repeat split; auto; lia.
  - repeat split; auto.
Qed.

(** ** One pass through the body of the loop *)

Lemma iteration_spec (st : state) :
  0 <= current st <= MAXORDINAL ->
  let d := current st in
  let r := try_suite get (url_of d) st in
  iteration get st
  = (advance_outcome d,
     mk_state (totals (snd r)) (days_processed (snd r)) (advanced d)
              (stdout st ++ error_lines d (fst r)
                         ++ progress_lines d (days_processed (snd r)))
              (requests st ++ [url_of d])).
Proof.
  intros Hc d r.
  destruct (try_suite_frame (url_of d) st) as (Hs & H1 & H2 & H3 & H4 & H5).
  fold r in Hs, H1, H2, H3, H4, H5.
  unfold iteration, bind, gets, try_except, print, modify, sleep, ret, lift.
  fold d. change (day_url (strftime_Ymd d)) with (url_of d). fold r.
  assert (Hadd : add_days d 1
                 = if d <? MAXORDINAL then Ok (d + 1)
                   else Err (OverflowError "date value out of range")).
  { unfold add_days.
    replace (0 <? d + 1) with true by (symmetry; apply Z.ltb_lt; lia).
    destruct (Z.ltb_spec d MAXORDINAL).
    - replace (d + 1 <=? MAXORDINAL) with true by (symmetry; apply Z.leb_le; lia).
      reflexivity.
    - replace (d + 1 <=? MAXORDINAL) with false by (symmetry; apply Z.leb_gt; lia).
      reflexivity. }
  unfold advance_outcome, advanced.
  destruct r as [[[] | e | c |] [t1 n1 c1 o1 r1]];
    cbn [fst snd current stdout requests] in *; try contradiction;
    subst c1 o1 r1;
    unfold error_lines, progress_lines, progress_line, error_line;
    destruct (day_of d =? 1); rewrite Hadd; destruct (d <? MAXORDINAL);
    cbn -[String.append str_of_Z strftime_BY strftime_Ymd];
    unfold set_current; cbn -[String.append str_of_Z strftime_BY strftime_Ymd];
    rewrite <- ?app_assoc, ?app_nil_r; reflexivity.
Qed.

Lemma step_spec (st : state) :
  0 <= current st <= MAXORDINAL ->
  let d := current st in
  let r := try_suite get (url_of d) st in
  step get st
  = mk_state (totals (snd r)) (days_processed (snd r)) (advanced d)
             (stdout st ++ error_lines d (fst r)
                        ++ progress_lines d (days_processed (snd r)))
             (requests st ++ [url_of d]).
Proof.
  intros Hc d r. unfold step. rewrite (iteration_spec st Hc). reflexivity.
Qed.

Lemma iteration_step (st : state) :
  0 <= current st < MAXORDINAL -> iteration get st = (Normal tt, step get st).
Proof.
  intro Hc. unfold step. rewrite (iteration_spec st) by lia.
  unfold advance_outcome.
  replace (current st <? MAXORDINAL) with true by (symmetry; apply Z.ltb_lt; lia).
  reflexivity.
Qed.

(** On [date.max] the pass is made, and then the script stops on the
    [OverflowError] of the addition. *)
Lemma iteration_last (st : state) :
  current st = MAXORDINAL ->
  iteration get st
  = (Raised (OverflowError "date value out of range"), step get st).
Proof.
  intro Hc. unfold step. rewrite (iteration_spec st) by (rewrite Hc; by_computing).
  unfold advance_outcome. rewrite Hc. reflexivity.
Qed.

Lemma current_step (st : state) :
  0 <= current st < MAXORDINAL -> current (step get st) = current st + 1.
Proof.
  intro Hc. rewrite (step_spec st) by lia. cbn [current]. unfold advanced.
  replace (current st <? MAXORDINAL) with true by (symmetry; apply Z.ltb_lt; lia).
  reflexivity.
Qed.

(** ** The loop *)

(** With fuel for one more test than there are dates left, the loop
    makes one pass per date left; it ends normally unless it has come to
    [date.max]. *)
Lemma loop_steps (n : nat) :
  forall (fuel : nat) (end_ : date) (st : state),
    0 <= current st -> end_ <= MAXORDINAL ->
    n = Z.to_nat (end_ - current st + 1) -> (n < fuel)%nat ->
    snd (loop get fuel end_ st) = Nat.iter n (step get) st
    /\ settled (fst (loop get fuel end_ st))
    /\ (end_ < MAXORDINAL -> fst (loop get fuel end_ st) = Normal tt).
Proof.
  induction n as [| n IH]; intros fuel end_ st Hc He Hn Hf;
    (destruct fuel as [| fuel]; [lia |]); unfold loop; simpl while.
  - replace (current st <=? end_) with false by (symmetry; apply Z.leb_gt; lia).
    simpl. auto.
  - replace (current st <=? end_) with true by (symmetry; apply Z.leb_le; lia).
    unfold bind.
    destruct (Z_lt_le_dec (current st) MAXORDINAL) as [Hlt | Hge].
    + rewrite iteration_step by lia.
      fold (loop get fuel end_).
      destruct (IH fuel end_ (step get st)) as (H1 & H2 & H3).
      * rewrite current_step by lia. lia.
      * assumption.
      * rewrite current_step by lia. lia.
      * lia.
      * rewrite Nat.iter_succ_r. auto.
    + rewrite iteration_last by lia.
      replace n with 0%nat by lia. simpl. repeat split. lia.
Qed.

Lemma loop_state_steps (start end_ : date) :
  valid_range start end_ ->
  loop_state get start end_
  = Nat.iter (Z.to_nat (end_ - start + 1)) (step get) (initial start).
Proof.
  intros [Hs He]. unfold loop_state.
  apply (loop_steps (Z.to_nat (end_ - start + 1)) (fuel_for start end_) end_ (initial start));
    simpl; try reflexivity; try assumption; try lia.
  unfold fuel_for. lia.
Qed.

Lemma loop_settled (start end_ : date) :
  valid_range start end_ ->
  settled (fst (loop get (fuel_for start end_) end_ (initial start))).
Proof.
  intros [Hs He].
  apply (loop_steps (Z.to_nat (end_ - start + 1)) (fuel_for start end_) end_ (initial start));
    simpl; try reflexivity; try assumption; try lia.
  unfold fuel_for. lia.
Qed.

Lemma loop_run (start end_ : date) :
  1 <= start -> end_ < MAXORDINAL ->
  loop get (fuel_for start end_) end_ (initial start)
  = (Normal tt, loop_state get start end_).
Proof.
  intros Hs He. unfold loop_state.
  destruct (loop_steps (Z.to_nat (end_ - start + 1)) (fuel_for start end_) end_
                       (initial start)) as (_ & _ & H);
    simpl; try reflexivity; try assumption; try lia.
  { unfold fuel_for. lia. }
  specialize (H He).
  destruct (loop get (fuel_for start end_) end_ (initial start)) as [o st'].
  simpl in *. rewrite H. reflexivity.
Qed.

(** With the end before the start, the body is never entered. *)
Lemma loop_skipped (start end_ : date) :
  end_ < start ->
  loop get (fuel_for start end_) end_ (initial start) = (Normal tt, initial start).
Proof.
  intro H. unfold loop, fuel_for. simpl.
  replace (start <=? end_) with false by (symmetry; apply Z.leb_gt; lia).
  reflexivity.
Qed.

Lemma loop_state_before (start end_ : date) :
  end_ < start -> loop_state get start end_ = initial start.
Proof. intro H. unfold loop_state. rewrite loop_skipped by assumption. reflexivity. Qed.

(** The globals after date [d] are those after date [d - 1], one pass
    later. *)
Lemma loop_state_next (start d : date) :
  1 <= start <= d -> d <= MAXORDINAL ->
  loop_state get start d = step get (loop_state get start (d - 1)).
Proof.
  intros Hs Hd.
  destruct (Z.eq_dec d start) as [-> | Hne].
  - rewrite (loop_state_before start (start - 1)) by lia.
    rewrite loop_state_steps by (unfold valid_range; lia).
    replace (Z.to_nat (start - start + 1)) with 1%nat by lia. reflexivity.
  - rewrite !loop_state_steps by (unfold valid_range; lia).
    replace (Z.to_nat (d - start + 1)) with (Datatypes.S (Z.to_nat (d - 1 - start + 1))) by lia.
    reflexivity.
Qed.

Lemma current_loop_state (start d : date) :
  1 <= start -> start - 1 <= d < MAXORDINAL ->
  current (loop_state get start d) = d + 1.
Proof.
  intros Hs Hd.
  assert (H : forall n : nat,
             start - 1 + Z.of_nat n < MAXORDINAL ->
             current (loop_state get start (start - 1 + Z.of_nat n))
             = start - 1 + Z.of_nat n + 1).
  { induction n as [| n IH]; intro Hn.
    - rewrite loop_state_before by lia. simpl. lia.
    - rewrite loop_state_next by lia.
      replace (start - 1 + Z.of_nat (Datatypes.S n) - 1) with (start - 1 + Z.of_nat n) by lia.
      rewrite current_step; rewrite IH by lia; lia. }
  specialize (H (Z.to_nat (d - (start - 1)))).
  replace (start - 1 + Z.of_nat (Z.to_nat (d - (start - 1)))) with d in H by lia.
  apply H. lia.
Qed.

(** The run to [end_] passes through the globals that the run to an
    earlier date [d] ends with. *)
Lemma loop_state_through (start d end_ : date) :
  1 <= start -> start - 1 <= d <= end_ -> end_ <= MAXORDINAL ->
  loop_state get start end_
  = Nat.iter (Z.to_nat (end_ - d)) (step get) (loop_state get start d).
Proof.
  intros Hs Hd He.
  rewrite (loop_state_steps start end_) by (unfold valid_range; lia).
  destruct (Z.eq_dec d (start - 1)) as [-> | Hne].
  - rewrite loop_state_before by lia. f_equal. lia.
  - rewrite (loop_state_steps start d) by (unfold valid_range; lia).
    rewrite <- Nat.iter_add. f_equal. lia.
Qed.

(** Induction along the dates of a range. *)
Lemma range_ind (start end_ : date) (P : date -> Prop) :
  P (start - 1) ->
  (forall d, start <= d <= end_ -> P (d - 1) -> P d) ->
  start - 1 <= end_ -> P end_.
Proof.
  intros H0 Hstep Hle.
  assert (H : forall n : nat, start - 1 + Z.of_nat n <= end_ -> P (start - 1 + Z.of_nat n)).
  { induction n as [| n IH]; intro Hn.
    - replace (start - 1 + Z.of_nat 0) with (start - 1) by lia. exact H0.
    - apply Hstep; [lia |].
      replace (start - 1 + Z.of_nat (Datatypes.S n) - 1) with (start - 1 + Z.of_nat n) by lia.
      apply IH. lia. }
  specialize (H (Z.to_nat (end_ - (start - 1)))).
  replace (start - 1 + Z.of_nat (Z.to_nat (end_ - (start - 1)))) with end_ in H by lia.
  apply H. lia.
Qed.

(** The state a pass starts in, within a range. *)
Lemma pass_start (start d : date) :
  1 <= start <= d -> d <= MAXORDINAL ->
  0 <= current (loop_state get start (d - 1)) <= MAXORDINAL
  /\ current (loop_state get start (d - 1)) = d.
Proof.
  intros Hs Hd. rewrite current_loop_state by lia. lia.
Qed.

(** ** The dates of a range *)

Lemma date_range_empty (start end_ : date) :
  end_ < start -> date_range start end_ = [].
Proof.
  intro H. unfold date_range.
  replace (Z.to_nat (end_ - start + 1)) with 0%nat by lia. reflexivity.
Qed.

Lemma date_range_snoc (start d : date) :
  start <= d -> date_range start d = date_range start (d - 1) ++ [d].
Proof.
  intro H. unfold date_range.
  replace (Z.to_nat (d - start + 1)) with (Datatypes.S (Z.to_nat (d - 1 - start + 1))) by lia.
  rewrite seq_S, map_app. simpl. f_equal. f_equal. lia.
Qed.

Lemma in_date_range (start end_ d : date) :
  In d (date_range start end_) <-> start <= d <= end_.
Proof.
  unfold date_range. rewrite in_map_iff. split.
  - intros (i & <- & Hi). apply in_seq in Hi. lia.
  - intro H. exists (Z.to_nat (d - start)). split; [lia |].
    apply in_seq. lia.
Qed.

(** ** The suite of the [try] when the day fails early *)

Lemma try_suite_get_raises (url : string) (e : exn) (st : state) :
  get url = Err e -> try_suite get url st = (Raised e, log_request url st).
Proof.
  intro H. unfold try_suite, bind, session_get. rewrite H. reflexivity.
Qed.

Lemma try_suite_fails_early (url : string) (st : state) :
  fails_early (get url) = true ->
  exists e, try_suite get url st = (Raised e, log_request url st).
Proof.
  unfold fails_early, try_suite, bind, session_get.
  destruct (get url) as [resp | e]; [| intros _; exists e; reflexivity].
  destruct (ok resp && negb (String.eqb (text resp) "")); simpl; [| discriminate].
  destruct (json resp) as [data | e]; simpl; [| intros _; exists e; reflexivity].
  destruct (contains data key) as [[|] | e]; simpl;
    [| discriminate | intros _; exists e; reflexivity].
  destruct (rbind (getitem data key) iter) as [rs | e]; simpl;
    [discriminate | intros _; exists e; reflexivity].
Qed.

(** The suite of the [try] and the additions on the totals alone. *)
Lemma try_suite_added (url : string) (st : state) :
  let r := try_suite get url st in
  let w := readings_added (totals st) (iterated (get url)) in
  totals (snd r) = fst w
  /\ (forall e, snd w = Some e -> fst r = Raised e)
  /\ (forall e, fst r = Raised e ->
                fails_early (get url) = true \/ snd w = Some e).
Proof.
  unfold try_suite, iterated, parsed, fails_early, bind, session_get.
  destruct (get url) as [resp | e];
    [| cbn; repeat split; [discriminate | intros; now left]].
  destruct (ok resp && negb (String.eqb (text resp) ""));
    [| cbn; repeat split; discriminate].
  destruct (json resp) as [data | e];
    [| cbn; repeat split; [discriminate | intros; now left]].
  cbn [lift ret raise].
  destruct (contains data key) as [[|] | e];
    [| cbn; repeat split; discriminate
     | cbn; repeat split; [discriminate | intros; now left]].
  destruct (rbind (getitem data key) iter) as [rs | e];
    [| cbn; repeat split; [discriminate | intros; now left]].
  cbn [lift ret raise]. rewrite add_readings_added. cbn [totals log_request].
  destruct (readings_added (totals st) rs) as [t' [e |]];
    cbn [fst snd outcome_of modify totals set_totals set_days_processed].
  - repeat split.
    + intros e' H. inversion H. reflexivity.
    + intros e' H. inversion H. right. reflexivity.
  - repeat split; discriminate.
Qed.

(** ** What the loop has requested and printed *)

Lemma requests_loop_state (start end_ : date) :
  valid_range start end_ ->
  requests (loop_state get start end_) = map url_of (date_range start end_).
Proof.
  intros [Hs He].
  destruct (Z_lt_le_dec end_ start) as [Hlt | Hle].
  { rewrite loop_state_before, date_range_empty by assumption. reflexivity. }
  apply (range_ind start end_
           (fun d => requests (loop_state get start d) = map url_of (date_range start d)));
    [| | lia].
  - rewrite loop_state_before, date_range_empty by lia. reflexivity.
  - intros d Hd IH.
    destruct (pass_start start d) as [Hc Hcur]; [lia | lia |].
    rewrite loop_state_next, (step_spec _ Hc) by lia. simpl.
    rewrite IH, Hcur, (date_range_snoc start d), map_app by lia. reflexivity.
Qed.

Lemma loop_state_pass (start d : date) :
  1 <= start <= d -> d <= MAXORDINAL ->
  let prev := loop_state get start (d - 1) in
  let r := try_suite get (url_of d) prev in
  totals (loop_state get start d) = totals (snd r) /\
  days_processed (loop_state get start d) = days_processed (snd r) /\
  stdout (loop_state get start d) = stdout prev ++ lines_of_day get start d.
Proof.
  intros Hs Hd prev r.
  destruct (pass_start start d) as [Hc Hcur]; [lia | lia |].
  rewrite loop_state_next, (step_spec _ Hc) by lia.
  rewrite Hcur. subst prev r. unfold lines_of_day.
  cbn [totals days_processed stdout]. repeat split; reflexivity.
Qed.

Lemma stdout_loop_state (start end_ : date) :
  valid_range start end_ ->
  stdout (loop_state get start end_)
  = flat_map (lines_of_day get start) (date_range start end_).
Proof.
  intros [Hs He].
  destruct (Z_lt_le_dec end_ start) as [Hlt | Hle].
  { rewrite loop_state_before, date_range_empty by assumption. reflexivity. }
  apply (range_ind start end_
           (fun d => stdout (loop_state get start d)
                     = flat_map (lines_of_day get start) (date_range start d)));
    [| | lia].
  - rewrite loop_state_before, date_range_empty by lia. reflexivity.
  - intros d Hd IH.
    destruct (loop_state_pass start d) as (_ & _ & H); [lia | lia |].
    rewrite H, IH, (date_range_snoc start d), flat_map_app by lia.
    simpl. rewrite app_nil_r. reflexivity.
Qed.

(** ** The report *)

Lemma report_frame_refl st : report_frame st st.
Proof.
  unfold report_frame. repeat split. exists []. rewrite app_nil_r. auto.
Qed.

Lemma report_frame_trans a b c :
  report_frame a b -> report_frame b c -> report_frame a c.
Proof.
  unfold report_frame.
  intros (H1 & H2 & H3 & H4 & l1 & H5 & H6) (K1 & K2 & K3 & K4 & l2 & K5 & K6).
  repeat split; try congruence.
  exists (l1 ++ l2). split.
  - rewrite K5, H5, app_assoc. reflexivity.
  - apply Forall_app. auto.
Qed.

#[local] Hint Resolve report_frame_refl report_frame_trans : fetch.

Lemma print_report_keeps (line : string) : keeps report_frame (print ReportLine line).
Proof.
  intro st. split; [exact I |]. unfold report_frame; simpl. repeat split.
  exists [(ReportLine, line)]. auto.
Qed.

Lemma totals_get_keeps (field : string) : keeps report_frame (totals_get field).
Proof.
  intro st. unfold totals_get.
  destruct (dict_get (totals st) field); simpl; auto with fetch.
Qed.

Lemma kwh_line_keeps (label : string) (n : number) :
  keeps report_frame (kwh_line label n).
Proof.
  unfold kwh_line. apply keeps_bind; eauto with fetch.
  - apply keeps_lift; auto with fetch.
  - intro q. apply print_report_keeps.
Qed.

Lemma report_keeps : keeps report_frame report.
Proof.
  unfold report.
  repeat (first [ apply print_report_keeps
                | apply totals_get_keeps
                | apply kwh_line_keeps
                | apply keeps_gets; auto with fetch
                | apply keeps_lift; auto with fetch
                | apply keeps_bind; eauto with fetch; [| intro ] ]).
Qed.

(** The script is the loop, then the report, unless the loop stopped at
    [date.max]. *)
Lemma run_report (start end_ : date) :
  1 <= start /\ end_ < MAXORDINAL \/ end_ < start ->
  run get start end_ = report (loop_state get start end_).
Proof.
  intros [[Hs He] | Hlt]; unfold run, bind.
  - rewrite loop_run by assumption. reflexivity.
  - rewrite loop_skipped, loop_state_before by assumption. reflexivity.
Qed.

Lemma run_frame (start end_ : date) :
  valid_range start end_ \/ end_ < start ->
  settled (fst (run get start end_)) /\
  report_frame (loop_state get start end_) (snd (run get start end_)).
Proof.
  intros [Hv | Hlt].
  - pose proof (loop_settled start end_ Hv) as Hs.
    unfold run, bind, loop_state.
    destruct (loop get (fuel_for start end_) end_ (initial start))
      as [[[] | e | c |] st']; cbn [fst snd] in *; try contradiction.
    + apply report_keeps.
    + split; [exact I | apply report_frame_refl].
  - rewrite run_report by (right; assumption). apply report_keeps.
Qed.

(** The fuel given to the loop is never used up. *)
Lemma run_settled (start end_ : date) :
  valid_range start end_ \/ end_ < start -> settled (fst (run get start end_)).
Proof. intro H. apply run_frame, H. Qed.

Lemma fetch_2025_settled : settled (fst (fetch_2025 get)).
Proof. apply run_settled. left. by_computing. Qed.

Lemma stdout_run (start end_ : date) :
  valid_range start end_ \/ end_ < start ->
  exists ls,
    stdout (snd (run get start end_)) = stdout (loop_state get start end_) ++ ls
    /\ Forall (fun l => fst l = ReportLine) ls.
Proof.
  intro H. destruct (run_frame start end_ H) as (_ & _ & _ & _ & _ & ls & H1 & H2).
  exists ls. auto.
Qed.

Lemma filter_progress_report (ls : list (printer * string)) :
  Forall (fun l => fst l = ReportLine) ls -> filter is_progress ls = [].
Proof.
  induction 1 as [| [p l] ls Hp _ IH]; simpl; [reflexivity |].
  unfold is_progress at 1. simpl in *. rewrite Hp. exact IH.
Qed.

Lemma filter_progress_day (start d : date) :
  filter is_progress (lines_of_day get start d)
  = progress_lines d
      (days_processed (snd (try_suite get (url_of d) (loop_state get start (d - 1))))).
Proof.
  unfold lines_of_day. rewrite filter_app.
  assert (H1 : forall o, filter is_progress (error_lines d o) = []).
  { intros [[] | e | c |]; reflexivity. }
  rewrite H1. unfold progress_lines. destruct (day_of d =? 1); reflexivity.
Qed.

(** ** The properties *)

Lemma progress_lines_of_run (start end_ : date) :
  valid_range start end_ ->
  filter is_progress (stdout (snd (run get start end_)))
  = map (fun d => progress_line d (days_processed (loop_state get start d)))
        (filter (fun d => day_of d =? 1) (date_range start end_)).
Proof.
  intro Hv.
  destruct (stdout_run start end_ (or_introl Hv)) as (ls & -> & Hls).
  rewrite filter_app, (filter_progress_report ls Hls), app_nil_r.
  rewrite stdout_loop_state by assumption.
  destruct Hv as [Hs He].
  assert (H : forall l : list date,
             (forall d, In d l -> start <= d <= end_) ->
             filter is_progress (flat_map (lines_of_day get start) l)
             = map (fun d => progress_line d (days_processed (loop_state get start d)))
                   (filter (fun d => day_of d =? 1) l)).
  { induction l as [| d l IH]; intro Hin; [reflexivity |].
    simpl. rewrite filter_app, filter_progress_day, IH by (intros; apply Hin; now right).
    destruct (loop_state_pass start d) as (_ & <- & _);
      [pose proof (Hin d (or_introl eq_refl)); lia
      | pose proof (Hin d (or_introl eq_refl)); lia |].
    unfold progress_lines. destruct (day_of d =? 1); reflexivity. }
  apply H. intros d Hd. apply in_date_range in Hd. exact Hd.
Qed.

Lemma days_processed_loop_state (start end_ : date) :
  valid_range start end_ ->
  days_processed (loop_state get start end_)
  = Z.of_nat (completed_days get start end_).
Proof.
  intros [Hs He]. unfold completed_days.
  destruct (Z_lt_le_dec end_ start) as [Hlt | Hle].
  { rewrite loop_state_before, date_range_empty by assumption. reflexivity. }
  apply (range_ind start end_
           (fun d => days_processed (loop_state get start d)
                     = Z.of_nat (List.length (filter
                         (fun d' => completes get (loop_state get start (d' - 1)) d')
                         (date_range start d)))));
    [| | lia].
  - rewrite loop_state_before, date_range_empty by lia. reflexivity.
  - intros d Hd IH.
    destruct (loop_state_pass start d) as (_ & -> & _); [lia | lia |].
    destruct (try_suite_frame (url_of d) (loop_state get start (d - 1)))
      as (_ & _ & _ & _ & _ & ->).
    rewrite IH, (date_range_snoc start d), filter_app, length_app by lia.
    simpl.
    change (answered (get (url_of d))
            && is_normal (fst (try_suite get (url_of d) (loop_state get start (d - 1)))))
      with (completes get (loop_state get start (d - 1)) d).
    destruct (completes get (loop_state get start (d - 1)) d); simpl; unfold date in *; lia.
Qed.

(** C9.  Over a valid range, the progress lines of the run are, in
    order, one for each date of the range whose day of the month is 1
    and none for any other date.  The line of such a date is the English
    name of its month, its year in decimal, [... (], the processed-day
    count and [ days)].  The count is the one reached when that date's
    own pass is done: the number of dates from the start up to and
    including that date whose suite ran to its end.  Year, month and day
    are those of the calendar: the date they make up is the date itself,
    the month is one of the twelve and the day lies within the month. *)
Theorem progress_line_each_first_of_month (start end_ : date) :
  valid_range start end_ ->
  filter is_progress (stdout (snd (run get start end_)))
  = map (fun d => (ProgressLine,
                   (month_word (month_of d) ++ " " ++ str_of_Z (year_of d)
                    ++ "... ("
                    ++ str_of_Z (days_processed (loop_state get start d))
                    ++ " days)")%string))
        (filter (fun d => day_of d =? 1) (date_range start end_))
  /\ (forall d, In d (date_range start end_) ->
                 days_processed (loop_state get start d)
                 = Z.of_nat (completed_days get start d))
  /\ (forall d, In d (date_range start end_) ->
                 ymd2ord (year_of d) (month_of d) (day_of d) = d
                 /\ 1 <= year_of d /\ 1 <= month_of d <= 12
                 /\ 1 <= day_of d <= days_in_month (year_of d) (month_of d)).
Proof.
  intro Hv. split; [| split].
  - rewrite (progress_lines_of_run start end_ Hv).
    apply map_ext. intro d. rewrite progress_line_text. reflexivity.
  - intros d Hd. apply in_date_range in Hd.
    apply days_processed_loop_state. destruct Hv. split; lia.
  - intros d Hd. apply in_date_range in Hd.
    apply PyFacts.ord2ymd_sound. destruct Hv. lia.
Qed.

Lemma keyless_completes (st : state) (d : date) :
  keyless (get (url_of d)) = true -> completes get st d = true.
Proof.
  unfold keyless, completes, parsed, answered, try_suite, bind, session_get.
  destruct (get (url_of d)) as [resp | e]; [| discriminate].
  destruct (ok resp && negb (String.eqb (text resp) "")); [| discriminate].
  destruct (json resp) as [[| | | | | kv] | e]; try discriminate.
  simpl. intro H. apply negb_true_iff in H. rewrite H. reflexivity.
Qed.

(** C5.  With the start after the end, the body of the loop is never
    entered: nothing is requested, every total is still zero, the
    processed-day count is zero, and the script ends normally on a
    report of zeros. *)
Theorem start_after_end_runs_no_pass (start end_ : date) :
  end_ < start ->
  loop_state get start end_ = initial start
  /\ requests (snd (run get start end_)) = []
  /\ (forall f n, In (f, n) (totals (snd (run get start end_))) -> n = Int 0)
  /\ dict_keys (totals (snd (run get start end_))) = fields
  /\ days_processed (snd (run get start end_)) = 0
  /\ fst (run get start end_) = Normal tt
  /\ map snd (stdout (snd (run get start end_)))
     = [ (newline ++ "=== 2025 Totals (0 days) ===")%string;
         "Import (from grid): 0.0 kWh"%string;
         "Export (to grid):   0.0 kWh"%string;
         "Generation (solar): 0.0 kWh"%string;
         "Consumption (est.): 0.0 kWh"%string ].
Proof.
  intro H.
  rewrite loop_state_before by assumption.
  rewrite run_report, loop_state_before by first [assumption | right; assumption].
  repeat split.
  simpl. intros f n Hin.
  repeat (destruct Hin as [Hin | Hin]; [inversion Hin; reflexivity |]).
  contradiction.
Qed.

(** ** Days as the data model has them *)

Lemma tot_plus_zero (t : string -> Z) : tot t = tot (fun g => t g + 0).
Proof. apply tot_ext. intros; lia. Qed.

Lemma try_suite_day_ok (url : string) (st : state) (t : string -> Z) :
  day_ok (get url) = true -> totals st = tot t ->
  totals (snd (try_suite get url st)) = tot (fun g => t g + day_sum g (get url)).
Proof.
  intros Hok Ht. unfold day_ok, day_sum, parsed in *.
  unfold try_suite, bind, session_get.
  destruct (get url) as [resp | e]; [| simpl; rewrite Ht; apply tot_plus_zero].
  destruct (ok resp && negb (String.eqb (text resp) ""));
    [| simpl; rewrite Ht; apply tot_plus_zero].
  destruct (json resp) as [data | e]; [| simpl; rewrite Ht; apply tot_plus_zero].
  destruct data as [| | | | | kv]; try discriminate.
  unfold readings_of. cbn [lift ret contains getitem]. rewrite existsb_keys.
  destruct (dict_get kv key) as [v |] eqn:E;
    [| simpl; rewrite Ht; apply tot_plus_zero].
  destruct v as [| | | | rs |]; try discriminate.
  cbn [ret rbind iter lift].
  rewrite (readings_ok rs Hok t (log_request url st) Ht). reflexivity.
Qed.

Lemma completes_day_ok (st : state) (d : date) (t : string -> Z) :
  day_ok (get (url_of d)) = true -> totals st = tot t ->
  completes get st d
  = match parsed (get (url_of d)) with Some _ => true | None => false end.
Proof.
  intros Hok Ht. unfold day_ok, completes, answered, parsed in *.
  unfold try_suite, bind, session_get.
  destruct (get (url_of d)) as [resp | e]; [| reflexivity].
  destruct (ok resp && negb (String.eqb (text resp) "")); [| reflexivity].
  destruct (json resp) as [data | e]; [| reflexivity].
  destruct data as [| | | | | kv]; try discriminate.
  cbn [lift ret contains getitem]. rewrite existsb_keys.
  destruct (dict_get kv key) as [v |] eqn:E; [| reflexivity].
  destruct v as [| | | | rs |]; try discriminate.
  cbn [ret rbind iter lift].
  rewrite (readings_ok rs Hok t (log_request (url_of d) st) Ht). reflexivity.
Qed.

Lemma sumZ_app (l l' : list Z) : sumZ (l ++ l') = sumZ l + sumZ l'.
Proof. induction l as [| x l IH]; simpl; [reflexivity | rewrite IH; lia]. Qed.

Lemma sum_over_parsed_days_next (f : string) (start d : date) :
  start <= d ->
  sum_over_parsed_days get f start d
  = sum_over_parsed_days get f start (d - 1) + day_sum f (get (url_of d)).
Proof.
  intro H. unfold sum_over_parsed_days.
  rewrite (date_range_snoc start d), map_app, sumZ_app by assumption.
  simpl. lia.
Qed.

Lemma totals_loop_state_ok (start end_ : date) :
  valid_range start end_ ->
  (forall d, start <= d <= end_ -> day_ok (get (url_of d)) = true) ->
  totals (loop_state get start end_)
  = tot (fun f => sum_over_parsed_days get f start end_).
Proof.
  intros [Hs He] Hok.
  destruct (Z_lt_le_dec end_ start) as [Hlt | Hle].
  { rewrite loop_state_before by assumption.
    unfold sum_over_parsed_days. rewrite date_range_empty by assumption.
    reflexivity. }
  apply (range_ind start end_
           (fun d => totals (loop_state get start d)
                     = tot (fun f => sum_over_parsed_days get f start d)));
    [| | lia].
  - rewrite loop_state_before by lia.
    unfold sum_over_parsed_days. rewrite date_range_empty by lia. reflexivity.
  - intros d Hd IH.
    destruct (loop_state_pass start d) as (-> & _ & _); [lia | lia |].
    rewrite (try_suite_day_ok _ _ _ (Hok d Hd) IH).
    apply tot_ext. intros f _. rewrite (sum_over_parsed_days_next f start d); lia.
Qed.

Lemma completed_days_ok (start end_ : date) :
  valid_range start end_ ->
  (forall d, start <= d <= end_ -> day_ok (get (url_of d)) = true) ->
  completed_days get start end_ = parsed_days get start end_.
Proof.
  intros [Hs He] Hok. unfold completed_days, parsed_days. f_equal.
  apply filter_ext_in. intros d Hd. apply in_date_range in Hd.
  apply (completes_day_ok _ d (fun f => sum_over_parsed_days get f start (d - 1)));
    [apply Hok, Hd |].
  apply totals_loop_state_ok; [unfold valid_range; lia |].
  intros d' Hd'. apply Hok. lia.
Qed.

(** C1, as the code has it.  Over a valid range, the final
    processed-day count is the number of dates whose response was OK and
    non-empty and whose [try] suite ran to its end, whether or not the
    per-device key was found; a date whose response decodes to an object
    without that key is one of them.  When every response is shaped as
    the data model has it, these are the dates whose response decoded. *)
Theorem days_processed_counts_completed_days (start end_ : date) :
  valid_range start end_ ->
  days_processed (snd (run get start end_))
  = Z.of_nat (completed_days get start end_)
  /\ (forall d, keyless (get (url_of d)) = true ->
                 completes get (loop_state get start (d - 1)) d = true)
  /\ ((forall d, start <= d <= end_ -> day_ok (get (url_of d)) = true) ->
      days_processed (snd (run get start end_))
      = Z.of_nat (parsed_days get start end_)).
Proof.
  intro Hv.
  assert (H : days_processed (snd (run get start end_))
              = Z.of_nat (completed_days get start end_)).
  { destruct (run_frame start end_ (or_introl Hv)) as (_ & _ & -> & _).
    apply days_processed_loop_state, Hv. }
  split; [exact H |]. split.
  - intros d. apply keyless_completes.
  - intro Hok. rewrite H, (completed_days_ok start end_ Hv Hok). reflexivity.
Qed.

(** C2, as the code has it.  Over a valid range on which every response
    that decodes is an object that lacks the per-device key or holds
    under it a list of records whose tracked fields, where present, are
    integers, the accumulator ends with, for each tracked field, the sum
    of that field over all successfully parsed days and all their
    reading records, a field missing from a record counting zero. *)
Theorem totals_sum_over_well_formed_days (start end_ : date) (f : string) :
  valid_range start end_ ->
  (forall d, start <= d <= end_ -> day_ok (get (url_of d)) = true) ->
  In f fields ->
  dict_get (totals (snd (run get start end_))) f
  = Some (Int (sum_over_parsed_days get f start end_)).
Proof.
  intros Hv Hok Hf.
  destruct (run_frame start end_ (or_introl Hv)) as (_ & -> & _).
  rewrite (totals_loop_state_ok start end_ Hv Hok).
  apply (dict_get_tot (fun g => sum_over_parsed_days get g start end_) f Hf).
Qed.

(** C4.  A date of the range whose GET raises gets its line
    [Error <date>: <error>], the date written as year, month and day;
    it is not counted as processed, leaves every total as it was when
    its pass began and adds nothing to any sum over the days.  Every
    later date of the range is still requested and processed: its
    records are added to the totals left by the date before it, and it
    is counted when its suite runs to its end; when its response is
    shaped as the data model has it, its sums are added to integer
    totals and it is counted if its response decoded.  So, on a range
    whose responses are so shaped, the totals and the count at the end
    are those of all the parsed days, the failed date not among them. *)
Theorem transport_error_skips_the_day (start end_ d : date) (e : exn) :
  valid_range start end_ -> start <= d <= end_ ->
  get (url_of d) = Err e ->
  In (ErrorLine, ("Error " ++ iso_text d ++ ": " ++ exn_str e)%string)
     (stdout (snd (run get start end_)))
  /\ days_processed (loop_state get start d)
     = days_processed (loop_state get start (d - 1))
  /\ totals (loop_state get start d) = totals (loop_state get start (d - 1))
  /\ (forall f, day_sum f (get (url_of d)) = 0)
  /\ completes get (loop_state get start (d - 1)) d = false
  /\ (forall d', d < d' <= end_ ->
        In (url_text d') (requests (snd (run get start end_)))
        /\ totals (loop_state get start d')
           = fst (readings_added (totals (loop_state get start (d' - 1)))
                                 (iterated (get (url_of d'))))
        /\ days_processed (loop_state get start d')
           = days_processed (loop_state get start (d' - 1))
             + (if completes get (loop_state get start (d' - 1)) d' then 1 else 0)
        /\ (forall t,
               totals (loop_state get start (d' - 1)) = tot t ->
               day_ok (get (url_of d')) = true ->
               totals (loop_state get start d')
               = tot (fun f => t f + day_sum f (get (url_of d')))
               /\ days_processed (loop_state get start d')
                  = days_processed (loop_state get start (d' - 1))
                    + (match parsed (get (url_of d')) with
                       | Some _ => 1
                       | None => 0
                       end)))
  /\ ((forall d', start <= d' <= end_ -> day_ok (get (url_of d')) = true) ->
      totals (snd (run get start end_))
      = tot (fun f => sum_over_parsed_days get f start end_)
      /\ days_processed (snd (run get start end_))
         = Z.of_nat (parsed_days get start end_)
      /\ parsed (get (url_of d)) = None).
Proof.
  intros Hv Hd He.
  pose proof Hv as [Hs Hm].
  destruct (run_frame start end_ (or_introl Hv))
    as (_ & Htot & Hcnt & _ & Hreq & ls & Hout & _).
  destruct (loop_state_pass start d) as (Ht & Hn & _); [lia | lia |].
  rewrite (try_suite_get_raises _ _ _ He) in Ht, Hn.
  split; [| split; [exact Hn | split; [exact Ht |]]].
  { rewrite Hout, stdout_loop_state by assumption.
    apply in_or_app; left. apply in_flat_map. exists d. split.
    - apply in_date_range. exact Hd.
    - unfold lines_of_day. rewrite (try_suite_get_raises _ _ _ He).
      cbn [fst error_lines app]. left. rewrite error_line_text. reflexivity. }
  split; [intro f; unfold day_sum, parsed; rewrite He; reflexivity |].
  split; [unfold completes, answered; rewrite He; reflexivity |].
  split.
  - intros d' Hd'.
    destruct (loop_state_pass start d') as (Ht' & Hn' & _); [lia | lia |].
    destruct (try_suite_added (url_of d') (loop_state get start (d' - 1)))
      as (Hw & _ & _).
    destruct (try_suite_frame (url_of d') (loop_state get start (d' - 1)))
      as (_ & _ & _ & _ & _ & Hcount).
    split; [| split; [| split]].
    + rewrite Hreq, requests_loop_state, <- url_of_text by assumption.
      apply in_map, in_date_range. lia.
    + rewrite Ht'. exact Hw.
    + rewrite Hn', Hcount. reflexivity.
    + intros t Hbefore Hok. split.
      * rewrite Ht'. apply try_suite_day_ok; assumption.
      * rewrite Hn', Hcount.
        change (answered (get (url_of d'))
                && is_normal (fst (try_suite get (url_of d')
                                     (loop_state get start (d' - 1)))))
          with (completes get (loop_state get start (d' - 1)) d').
        rewrite (completes_day_ok _ d' t Hok Hbefore).
        destruct (parsed (get (url_of d'))); reflexivity.
  - intro Hok. split; [| split].
    + rewrite Htot. apply totals_loop_state_ok; assumption.
    + rewrite Hcnt, days_processed_loop_state, completed_days_ok by assumption.
      reflexivity.
    + unfold parsed. rewrite He. reflexivity.
Qed.

(** ** A day that fails part-way *)

Lemma totals_keys_loop_state (start d : date) :
  1 <= start -> start - 1 <= d <= MAXORDINAL ->
  dict_keys (totals (loop_state get start d)) = fields.
Proof.
  intros Hs Hd.
  apply (range_ind start d
           (fun d' => dict_keys (totals (loop_state get start d')) = fields));
    [| | lia].
  - rewrite loop_state_before by lia. reflexivity.
  - intros d' Hd' IH.
    destruct (loop_state_pass start d') as (-> & _ & _); [lia | lia |].
    destruct (try_suite_frame (url_of d') (loop_state get start (d' - 1)))
      as (_ & _ & _ & _ & -> & _).
    exact IH.
Qed.

Lemma keys_shape (ts : list (string * number)) :
  dict_keys ts = fields ->
  exists n1 n2 n3 n4 n5 n6,
    ts = [("imp"%string, n1); ("exp"%string, n2); ("gep"%string, n3);
          ("gen"%string, n4); ("h1d"%string, n5); ("h1b"%string, n6)].
Proof.
  unfold fields, dict_keys. simpl. intro H.
  repeat (destruct ts as [| [? ?] ts]; simpl in H; try discriminate).
  inversion H; subst. do 6 eexists. reflexivity.
Qed.

Lemma add_field_present (r : list (string * value)) (f : string)
      (x : value) (old : number) (st : state) :
  dict_get r f = Some x -> dict_get (totals st) f = Some old ->
  add_field (VDict r) f st
  = match iadd old x with
    | Ok new => (Normal tt, set_totals (dict_set (totals st) f new) st)
    | Err e => (Raised e, st)
    end.
Proof.
  intros Hr Hold. unfold add_field, bind, lift, totals_get, modify, ret, raise.
  cbn [contains getitem]. rewrite existsb_keys, Hr, Hold.
  destruct (iadd old x); reflexivity.
Qed.

Lemma iadd_not_number (old : number) (bad : value) :
  is_number bad = false -> exists e, iadd old bad = Err e.
Proof.
  destruct bad; try discriminate; intros _; eexists; reflexivity.
Qed.

(** C6, as the code has it.  No pass rolls totals back, failing or not:
    the totals after the pass of a date are the totals before it with
    the additions of that date's records made on top, one field of one
    record after the other up to the first that raises, if any; the keys
    stay, and a field that no record of the day holds keeps its value.  A
    date whose suite raises is reported as an error and not counted; it
    failed either before anything was added, and then every total is
    what it was when the pass began, or while its records were added,
    and then the totals are those reached when the exception was raised
    (they need not be those of before the pass). *)
Theorem failure_never_rolls_totals_back (start d : date) :
  valid_range start d -> start <= d ->
  totals (loop_state get start d)
  = fst (readings_added (totals (loop_state get start (d - 1)))
                        (iterated (get (url_of d))))
  /\ dict_keys (totals (loop_state get start d))
     = dict_keys (totals (loop_state get start (d - 1)))
  /\ (forall f,
         (forall r, In r (iterated (get (url_of d))) -> contains r f <> Ok true) ->
         dict_get (totals (loop_state get start d)) f
         = dict_get (totals (loop_state get start (d - 1))) f)
  /\ (forall t,
         totals (loop_state get start (d - 1)) = tot t ->
         forallb reading_ok (iterated (get (url_of d))) = true ->
         totals (loop_state get start d)
         = tot (fun f => t f + sumZ (map (field_value f) (iterated (get (url_of d))))))
  /\ (fails_early (get (url_of d)) = true ->
      totals (loop_state get start d) = totals (loop_state get start (d - 1))
      /\ exists e, fst (try_suite get (url_of d) (loop_state get start (d - 1)))
                   = Raised e)
  /\ (forall e,
         fst (try_suite get (url_of d) (loop_state get start (d - 1))) = Raised e ->
         In (ErrorLine, ("Error " ++ iso_text d ++ ": " ++ exn_str e)%string)
            (stdout (loop_state get start d))
         /\ days_processed (loop_state get start d)
            = days_processed (loop_state get start (d - 1))
         /\ (fails_early (get (url_of d)) = true
             \/ snd (readings_added (totals (loop_state get start (d - 1)))
                                    (iterated (get (url_of d)))) = Some e)).
Proof.
  intros [Hs Hm] Hd.
  destruct (loop_state_pass start d) as (Ht & Hn & Hout); [lia | lia |].
  destruct (try_suite_added (url_of d) (loop_state get start (d - 1)))
    as (Hw & Hstop & Hraise).
  destruct (try_suite_frame (url_of d) (loop_state get start (d - 1)))
    as (_ & _ & _ & _ & _ & Hcount).
  rewrite Hw in Ht.
  split; [exact Ht |]. split; [rewrite Ht; apply readings_added_keys |].
  split; [intros f Hf; rewrite Ht; apply readings_added_other, Hf |].
  split.
  { intros t Hbefore Hok. rewrite Ht, Hbefore, (readings_added_ok _ t Hok).
    reflexivity. }
  split.
  - intro Hf.
    destruct (try_suite_fails_early (url_of d) (loop_state get start (d - 1)) Hf)
      as [e He].
    split; [| exists e; rewrite He; reflexivity].
    rewrite Ht, <- Hw, He. reflexivity.
  - intros e He. split; [| split].
    + rewrite Hout. apply in_or_app; right. unfold lines_of_day. rewrite He.
      cbn [error_lines app]. left. rewrite error_line_text. reflexivity.
    + rewrite Hn, Hcount, He. cbn [is_normal]. rewrite andb_false_r. lia.
    + apply Hraise, He.
Qed.

(** C10.  Accumulating a day is not atomic.  Whenever the walk over a
    day's records stops on an exception, whatever the field, the shape
    of the record or the exception ([TypeError], [KeyError],
    [OverflowError]) and whether the totals are integers or floats, the
    day is reported as an error and not counted, and the totals are
    those reached when the exception was raised: the records before the
    one that raised added in full, and of that one the fields before the
    one that raised.  On integer totals, after well-formed records and
    well-formed fields, these are the totals of before the pass plus the
    values of those records and of those fields.  A suite that raises
    after the records were reached stopped in just this way. *)
Theorem additions_before_a_failure_stay (start d : date) :
  valid_range start d -> start <= d ->
  (forall (t1 : list (string * number)) (e : exn),
      readings_added (totals (loop_state get start (d - 1)))
                     (iterated (get (url_of d))) = (t1, Some e) ->
      fst (try_suite get (url_of d) (loop_state get start (d - 1))) = Raised e
      /\ In (ErrorLine, ("Error " ++ iso_text d ++ ": " ++ exn_str e)%string)
            (stdout (loop_state get start d))
      /\ days_processed (loop_state get start d)
         = days_processed (loop_state get start (d - 1))
      /\ totals (loop_state get start d) = t1
      /\ exists done r rest fs f fs' ta,
           iterated (get (url_of d)) = done ++ r :: rest
           /\ fields = fs ++ f :: fs'
           /\ readings_added (totals (loop_state get start (d - 1))) done = (ta, None)
           /\ fields_added ta r fs = (t1, None)
           /\ field_added t1 r f = Err e)
  /\ (forall (t : string -> Z) (done rest : list value)
             (kv : list (string * value)) (fs fs' : list string) (f : string),
         totals (loop_state get start (d - 1)) = tot t ->
         iterated (get (url_of d)) = done ++ VDict kv :: rest ->
         forallb reading_ok done = true ->
         fields = fs ++ f :: fs' ->
         forallb (field_ok kv) fs = true ->
         not_addable kv f = true ->
         totals (loop_state get start d)
         = tot (fun g => t g + sumZ (map (field_value g) done)
                         + (if existsb (String.eqb g) fs
                            then field_value g (VDict kv) else 0))
         /\ days_processed (loop_state get start d)
            = days_processed (loop_state get start (d - 1))
         /\ exists e,
              fst (try_suite get (url_of d) (loop_state get start (d - 1))) = Raised e
              /\ In (ErrorLine, ("Error " ++ iso_text d ++ ": " ++ exn_str e)%string)
                    (stdout (loop_state get start d)))
  /\ (forall e,
         fst (try_suite get (url_of d) (loop_state get start (d - 1))) = Raised e ->
         fails_early (get (url_of d)) = false ->
         exists t1,
           readings_added (totals (loop_state get start (d - 1)))
                          (iterated (get (url_of d))) = (t1, Some e)).
Proof.
  intros [Hs Hm] Hd.
  destruct (loop_state_pass start d) as (Ht & Hn & Hout); [lia | lia |].
  destruct (try_suite_added (url_of d) (loop_state get start (d - 1)))
    as (Hw & Hstop & Hraise).
  destruct (try_suite_frame (url_of d) (loop_state get start (d - 1)))
    as (_ & _ & _ & _ & _ & Hcount).
  pose proof (totals_keys_loop_state start (d - 1) Hs ltac:(lia)) as Hkeys.
  rewrite Hw in Ht.
  assert (Hgen : forall t1 e,
             readings_added (totals (loop_state get start (d - 1)))
                            (iterated (get (url_of d))) = (t1, Some e) ->
             fst (try_suite get (url_of d) (loop_state get start (d - 1))) = Raised e
             /\ In (ErrorLine, ("Error " ++ iso_text d ++ ": " ++ exn_str e)%string)
                   (stdout (loop_state get start d))
             /\ days_processed (loop_state get start d)
                = days_processed (loop_state get start (d - 1))
             /\ totals (loop_state get start d) = t1).
  { intros t1 e H.
    assert (He : fst (try_suite get (url_of d) (loop_state get start (d - 1)))
                 = Raised e) by (apply Hstop; rewrite H; reflexivity).
    split; [exact He |]. split; [| split].
    - rewrite Hout. apply in_or_app; right. unfold lines_of_day. rewrite He.
      cbn [error_lines app]. left. rewrite error_line_text. reflexivity.
    - rewrite Hn, Hcount, He. cbn [is_normal]. rewrite andb_false_r. lia.
    - rewrite Ht, H. reflexivity. }
  split; [| split].
  - intros t1 e H. destruct (Hgen t1 e H) as (H1 & H2 & H3 & H4).
    do 4 (split; [assumption |]).
    destruct (readings_added_stopped _ _ _ _ H)
      as (done & r & rest & ta & Hrs & Hdone & Hk & Hr).
    unfold reading_added in Hr. rewrite Hk, Hkeys in Hr.
    destruct (fields_added_stopped _ _ _ _ _ Hr) as (fs & f & fs' & Hfs & Hfsd & Hf).
    exists done, r, rest, fs, f, fs', ta. repeat split; assumption.
  - intros t done rest kv fs fs' f Hbefore Hrs Hdone Hfs Hok Hbad.
    destruct (readings_added_broken t done rest kv fs fs' f Hdone Hfs Hok Hbad)
      as [e He].
    rewrite <- Hrs, <- Hbefore in He.
    destruct (Hgen _ e He) as (H1 & H2 & H3 & H4).
    split; [exact H4 |]. split; [exact H3 |]. exists e. split; assumption.
  - intros e He Hearly. destruct (Hraise e He) as [H | H]; [congruence |].
    destruct (readings_added _ _) as [t1 o]. cbn [snd] in H. subst o.
    exists t1. reflexivity.
Qed.

(** ** The report on given totals *)



End Session.

(** ** The properties on sample sessions *)

Import Samples.

(** C1 as stated fails: a single day whose response is OK, non-empty
    and decodes to an object without the per-device key is counted,
    though the key was found on no date. *)
Lemma keyless_day_is_counted :
  days_processed (snd (run keyless_get jan1 jan1)) = 1
  /\ keyed_days keyless_get jan1 jan1 = 0%nat
  /\ days_processed (snd (run keyless_get jan1 jan1))
     <> Z.of_nat (keyed_days keyless_get jan1 jan1).
Proof. vm_compute. repeat split. discriminate. Qed.

Lemma days_processed_counts_completed_days_witness :
  valid_range jan1 jan3
  /\ (days_processed (snd (run mixed_get jan1 jan3))
      = Z.of_nat (completed_days mixed_get jan1 jan3)
      /\ (forall d, keyless (mixed_get (url_of d)) = true ->
                     completes mixed_get (loop_state mixed_get jan1 (d - 1)) d = true)).
Proof.
  split; [by_computing |].
  destruct (days_processed_counts_completed_days mixed_get jan1 jan3)
    as (H1 & H2 & _); [by_computing |].
  split; [exact H1 | exact H2].
Defined.

(** C2 as stated fails: with two days that raise while their records
    are added, ["imp"] ends at 7, while its sum over the days that
    decoded is 12 and its sum over the days counted as processed is 0. *)
Lemma ragged_days_break_the_sum :
  dict_get (totals (snd (run ragged_get jan1 jan2))) "imp" = Some (Int 7)
  /\ sum_over_parsed_days ragged_get "imp" jan1 jan2 = 12
  /\ sum_over_counted_days ragged_get "imp" jan1 jan2 = 0.
Proof. vm_compute. repeat split. Qed.

Lemma totals_sum_over_well_formed_days_witness :
  valid_range jan1 jan3
  /\ (forall d, jan1 <= d <= jan3 -> day_ok (tidy_get (url_of d)) = true)
  /\ In "imp"%string fields
  /\ dict_get (totals (snd (run tidy_get jan1 jan3))) "imp"
     = Some (Int (sum_over_parsed_days tidy_get "imp" jan1 jan3)).
Proof.
  assert (Hok : forall d, jan1 <= d <= jan3 -> day_ok (tidy_get (url_of d)) = true).
  { intros d _. unfold tidy_get. destruct (String.eqb _ _); reflexivity. }
  split; [by_computing |]. split; [exact Hok |]. split; [left; reflexivity |].
  apply (totals_sum_over_well_formed_days tidy_get jan1 jan3 "imp");
    [by_computing | exact Hok | left; reflexivity].
Defined.

Lemma tidy_get_imp_total :
  dict_get (totals (snd (run tidy_get jan1 jan3))) "imp" = Some (Int 7200010).
Proof. vm_compute. reflexivity. Qed.


(** A day of 1.5 kWh imported, 0.34 kWh exported and 2.5 kWh generated,
    and the same with ten times the export: the four figures of the
    report, the consumption below zero in the second. *)
Lemma report_of_a_spread_day :
  map snd (stdout (snd (run spread_get jan1 jan1)))
  = [ "January 2025... (1 days)";
      (newline ++ "=== 2025 Totals (1 days) ===");
      "Import (from grid): 1.5 kWh";
      "Export (to grid):   0.3 kWh";
      "Generation (solar): 2.5 kWh";
      "Consumption (est.): 3.7 kWh" ]%string
  /\ map snd (stdout (snd (run spread_get jan2 jan2)))
     = [ (newline ++ "=== 2025 Totals (1 days) ===");
         "Import (from grid): 1.5 kWh";
         "Export (to grid):   3.4 kWh";
         "Generation (solar): 0.4 kWh";
         "Consumption (est.): -1.5 kWh" ]%string.
Proof. vm_compute. split; reflexivity. Qed.

Lemma progress_line_each_first_of_month_witness :
  valid_range jan1 jan3
  /\ filter is_progress (stdout (snd (run mixed_get jan1 jan3)))
     = map (fun d => (ProgressLine,
                      (month_word (month_of d) ++ " " ++ str_of_Z (year_of d)
                       ++ "... ("
                       ++ str_of_Z (days_processed (loop_state mixed_get jan1 d))
                       ++ " days)")%string))
           (filter (fun d => day_of d =? 1) (date_range jan1 jan3))
  /\ map (fun d => (ProgressLine,
                    (month_word (month_of d) ++ " " ++ str_of_Z (year_of d)
                     ++ "... ("
                     ++ str_of_Z (days_processed (loop_state mixed_get jan1 d))
                     ++ " days)")%string))
         (filter (fun d => day_of d =? 1) (date_range jan1 jan3))
     = [(ProgressLine, "January 2025... (1 days)"%string)].
Proof.
  split; [by_computing |]. split; [| reflexivity].
  exact (proj1 (progress_line_each_first_of_month mixed_get jan1 jan3
                  ltac:(by_computing))).
Defined.

Lemma progress_lines_of_2025 :
  map snd (filter is_progress (stdout (snd (fetch_2025 mixed_get))))
  = [ "January 2025... (1 days)"; "February 2025... (1 days)";
      "March 2025... (1 days)"; "April 2025... (1 days)";
      "May 2025... (1 days)"; "June 2025... (1 days)";
      "July 2025... (1 days)"; "August 2025... (1 days)";
      "September 2025... (1 days)"; "October 2025... (1 days)";
      "November 2025... (1 days)"; "December 2025... (1 days)" ]%string.
Proof. vm_compute. reflexivity. Qed.

Lemma transport_error_skips_the_day_witness :
  valid_range jan1 jan3 /\ jan1 <= jan2 <= jan3
  /\ mixed_get (url_of jan2) = Err (mk_exn "ConnectionError" "connection refused")
  /\ In (ErrorLine, ("Error " ++ iso_text jan2 ++ ": " ++ "connection refused")%string)
        (stdout (snd (run mixed_get jan1 jan3)))
  /\ ("Error " ++ iso_text jan2 ++ ": " ++ "connection refused")%string
     = "Error 2025-01-02: connection refused"%string
  /\ totals (loop_state mixed_get jan1 jan3)
     = fst (readings_added (totals (loop_state mixed_get jan1 (jan3 - 1)))
                           (iterated (mixed_get (url_of jan3))))
  /\ url_text jan3 = "https://s18.myenergi.net/cgi-jday-Z21962448-2025-01-03"%string.
Proof.
  split; [by_computing |]. split; [by_computing |]. split; [reflexivity |].
  destruct (transport_error_skips_the_day mixed_get jan1 jan3 jan2
              (mk_exn "ConnectionError" "connection refused"))
    as (H1 & _ & _ & _ & _ & H6 & _); [by_computing | by_computing | reflexivity |].
  split; [exact H1 |]. split; [reflexivity |].
  split; [| reflexivity].
  exact (proj1 (proj2 (H6 jan3 ltac:(by_computing)))).
Defined.

Lemma start_after_end_runs_no_pass_witness :
  jan1 < jan2
  /\ requests (snd (run mixed_get jan2 jan1)) = []
  /\ days_processed (snd (run mixed_get jan2 jan1)) = 0.
Proof.
  split; [by_computing |].
  destruct (start_after_end_runs_no_pass mixed_get jan2 jan1)
    as (_ & H2 & _ & _ & H5 & _); [by_computing |].
  split; [exact H2 | exact H5].
Defined.

(** C6 as stated fails: the third of January is a failing date, its
    line of error is printed, and yet ["imp"] is 3600005 after its pass
    where it was 3600000 before. *)
Lemma failing_day_changes_a_total :
  In (ErrorLine,
      "Error 2025-01-03: unsupported operand type(s) for +=: 'int' and 'NoneType'"%string)
     (stdout (loop_state mixed_get jan1 jan3))
  /\ dict_get (totals (loop_state mixed_get jan1 (jan3 - 1))) "imp"
     = Some (Int 3600000)
  /\ dict_get (totals (loop_state mixed_get jan1 jan3)) "imp"
     = Some (Int 3600005)
  /\ totals (loop_state mixed_get jan1 jan3)
     <> totals (loop_state mixed_get jan1 (jan3 - 1)).
Proof.
  vm_compute. repeat split; [| discriminate].
  right; right; left; reflexivity.
Qed.

Lemma failure_never_rolls_totals_back_witness :
  valid_range jan1 jan3 /\ jan1 <= jan3
  /\ totals (loop_state mixed_get jan1 jan3)
     = fst (readings_added (totals (loop_state mixed_get jan1 (jan3 - 1)))
                           (iterated (mixed_get (url_of jan3))))
  /\ fst (readings_added (totals (loop_state mixed_get jan1 (jan3 - 1)))
                         (iterated (mixed_get (url_of jan3))))
     = [("imp", Int 3600005); ("exp", Int 0); ("gep", Int 0);
        ("gen", Int 0); ("h1d", Int 0); ("h1b", Int 0)]%string.
Proof.
  split; [by_computing |]. split; [by_computing |]. split; [| reflexivity].
  exact (proj1 (failure_never_rolls_totals_back mixed_get jan1 jan3
                  ltac:(by_computing) ltac:(by_computing))).
Defined.

Lemma additions_before_a_failure_stay_witness :
  valid_range jan1 jan3 /\ jan1 <= jan3
  /\ totals (loop_state mixed_get jan1 (jan3 - 1))
     = tot (fun f => if String.eqb f "imp" then 3600000 else 0)
  /\ totals (loop_state mixed_get jan1 jan3)
     = tot (fun g => (if String.eqb g "imp" then 3600000 else 0) + 0
                     + (if existsb (String.eqb g) ["imp"%string]
                        then field_value g (VDict [("imp", VNum (Int 5)); ("exp", VNone)]%string)
                        else 0))
  /\ days_processed (loop_state mixed_get jan1 jan3)
     = days_processed (loop_state mixed_get jan1 (jan3 - 1)).
Proof.
  split; [by_computing |]. split; [by_computing |]. split; [reflexivity |].
  destruct (proj1 (proj2 (additions_before_a_failure_stay mixed_get jan1 jan3
                            ltac:(by_computing) ltac:(by_computing)))
              (fun f => if String.eqb f "imp" then 3600000 else 0)
              [] [] [("imp", VNum (Int 5)); ("exp", VNone)]%string
              ["imp"%string] ["gep"; "gen"; "h1d"; "h1b"]%string "exp"%string)
    as (H1 & H2 & _);
    only 1-6: reflexivity.
  split; [exact H1 | exact H2].
Defined.

(** Four days that break in four ways ([broken_get]): each is reported
    as an error, none is counted, and what each added before it raised
    is in the totals at the end. *)
Lemma broken_days :
  map snd (filter is_error (stdout (loop_state broken_get jan1 jan4)))
  = [ "Error 2025-01-01: unsupported operand type(s) for +=: 'int' and 'str'";
      "Error 2025-01-02: argument of type 'int' is not iterable";
      "Error 2025-01-03: int too large to convert to float";
      "Error 2025-01-04: unsupported operand type(s) for +=: 'int' and 'NoneType'"
    ]%string
  /\ days_processed (loop_state broken_get jan1 jan4) = 0
  /\ totals (loop_state broken_get jan1 jan1)
     = [("imp", Int 7); ("exp", Int 2); ("gep", Int 0);
        ("gen", Int 0); ("h1d", Int 0); ("h1b", Int 0)]%string
  /\ totals (loop_state broken_get jan1 jan2)
     = [("imp", Int 8); ("exp", Int 2); ("gep", Int 0);
        ("gen", Int 0); ("h1d", Int 0); ("h1b", Int 0)]%string
  /\ totals (loop_state broken_get jan1 jan3)
     = [("imp", Int 9); ("exp", Int 2); ("gep", Int 0);
        ("gen", Int 0); ("h1d", Int (10 ^ 400)); ("h1b", Int 0)]%string
  /\ totals (loop_state broken_get jan1 jan4)
     = [("imp", Float (S754_finite false 6473924464345088 (-49)));
        ("exp", Int 2); ("gep", Int 0);
        ("gen", Int 0); ("h1d", Int (10 ^ 400)); ("h1b", Int 0)]%string.
Proof. vm_compute. repeat split. Qed.

End Fetch2025Facts.

(* ===================================================================== *)
(** * Facts about [test_myenergi.py] *)
(* ===================================================================== *)

Module TestMyenergiFacts.

Import Py Http Script TestMyenergi Samples.
Local Open Scope list_scope.

Lemma truthy_false (o : option string) :
  truthy o = false <-> o = None \/ o = Some ""%string.
Proof.
  destruct o as [s |]; simpl.
  - rewrite negb_false_iff, String.eqb_eq. split.
    + intros ->. right. reflexivity.
    + intros [H | H]; [discriminate | congruence].
  - split; auto.
Qed.

Lemma truthy_true (s : string) : s <> ""%string -> truthy (Some s) = true.
Proof. intro H. simpl. apply negb_true_iff, String.eqb_neq, H. Qed.

Section Probe.

Variable environ : string -> option string.
Variable get : nat -> string -> result response.

(** The probe once both variables are set and non-empty. *)
Lemma probe_configured :
  truthy (environ "MYENERGI_SERIAL") = true ->
  truthy (environ "MYENERGI_API_KEY") = true ->
  test_myenergi environ get
  = (resp <- session_get get DIRECTOR_URL ;;
     resp <- (if header_in ASN_HEADER (headers resp) then
                server <- header_item resp ASN_HEADER ;;
                session_get get ("https://" ++ server ++ "/cgi-jstatus-*")
              else ret resp) ;;
     body <- lift (json resp) ;;
     print (Repr body))%script initial.
Proof.
  intros Hs Hk. unfold test_myenergi, probe. unfold bind at 1.
  rewrite Hs, Hk. reflexivity.
Qed.

(** C7.  When the response of the director carries the
    server-assignment header, the probe issues exactly one more request,
    to the status URL of the server the header names; if that request
    returns and its body decodes, that body is what is printed, and in
    no case is anything printed that did not come from that second
    request. *)
Theorem probe_prints_the_second_response (resp1 : response) (server : string) :
  truthy (environ "MYENERGI_SERIAL") = true ->
  truthy (environ "MYENERGI_API_KEY") = true ->
  get 0%nat DIRECTOR_URL = Ok resp1 ->
  header_get (headers resp1) ASN_HEADER = Some server ->
  let url2 := ("https://" ++ server ++ "/cgi-jstatus-*")%string in
  requests (snd (test_myenergi environ get)) = [DIRECTOR_URL; url2]
  /\ (forall resp2 body,
        get 1%nat url2 = Ok resp2 -> json resp2 = Ok body ->
        test_myenergi environ get
        = (Normal tt, mk_state [Repr body] [DIRECTOR_URL; url2]))
  /\ (forall o,
        In o (stdout (snd (test_myenergi environ get))) ->
        exists resp2 body,
          get 1%nat url2 = Ok resp2 /\ json resp2 = Ok body /\ o = Repr body).
Proof.
  intros Hs Hk Hget Hasn url2.
  rewrite (probe_configured Hs Hk).
  unfold bind, session_get, header_in, header_item, initial.
  cbn [requests stdout List.length app]. rewrite Hget, Hasn.
  cbn [ret requests stdout List.length app]. fold url2.
  destruct (get 1%nat url2) as [resp2 | e] eqn:Hget2.
  - destruct (json resp2) as [body | e] eqn:Hjson; cbn [lift ret raise print modify fst snd requests stdout app].
    + split; [reflexivity |]. split.
      * intros r b Hr Hb. injection Hr as <-. rewrite Hjson in Hb.
        injection Hb as <-. reflexivity.
      * intros o [<- | []]. exists resp2, body. auto.
    + split; [reflexivity |]. split.
      * intros r b Hr Hb. injection Hr as <-. rewrite Hjson in Hb. discriminate.
      * intros o [].
  - cbn [fst snd requests stdout]. split; [reflexivity |]. split.
    + intros r b Hr. discriminate.
    + intros o [].
Qed.

(** C8, as the code has it.  A variable that is absent or set to the
    empty string makes the probe print its instruction and exit with
    status 1 before any request; with both set to non-empty strings it
    does not: the instruction is not printed and the director is
    requested. *)
Theorem probe_needs_both_variables :
  (environ "MYENERGI_SERIAL" = None \/ environ "MYENERGI_SERIAL" = Some ""%string
   \/ environ "MYENERGI_API_KEY" = None \/ environ "MYENERGI_API_KEY" = Some ""%string ->
   test_myenergi environ get
   = (Exited 1,
      mk_state [Text "Set MYENERGI_SERIAL and MYENERGI_API_KEY environment variables"]
               []))
  /\ (forall serial api_key,
        environ "MYENERGI_SERIAL" = Some serial -> serial <> ""%string ->
        environ "MYENERGI_API_KEY" = Some api_key -> api_key <> ""%string ->
        (forall code, fst (test_myenergi environ get) <> Exited code)
        /\ (forall s, ~ In (Text s) (stdout (snd (test_myenergi environ get))))
        /\ exists rest, requests (snd (test_myenergi environ get)) = DIRECTOR_URL :: rest).
Proof.
  split.
  - intro H.
    assert (Hf : negb (truthy (environ "MYENERGI_SERIAL"))
                 || negb (truthy (environ "MYENERGI_API_KEY")) = true).
    { apply orb_true_iff.
      destruct H as [H | [H | [H | H]]];
        [left | left | right | right]; apply negb_true_iff, truthy_false; auto. }
    unfold test_myenergi, probe. unfold bind at 1. rewrite Hf. reflexivity.
  - intros serial api_key Hs Hsne Hk Hkne.
    rewrite probe_configured
      by (rewrite ?Hs, ?Hk; apply truthy_true; assumption).
    unfold bind, session_get, header_in, header_item, initial.
    cbn [requests stdout List.length app].
    destruct (get 0%nat DIRECTOR_URL) as [resp1 | e1];
      [| repeat split; [discriminate | intros s [] | eexists; reflexivity]].
    destruct (header_get (headers resp1) ASN_HEADER) as [server |];
      cbn [ret requests stdout List.length app].
    + destruct (get 1%nat _) as [resp2 | e2];
        [| repeat split; [discriminate | intros s [] | eexists; reflexivity]].
      destruct (json resp2) as [body | e];
        cbn [lift ret raise print modify fst snd requests stdout app];
        (repeat split; [discriminate | | eexists; reflexivity]).
      * intros s [H | []]. discriminate.
      * intros s [].
    + destruct (json resp1) as [body | e];
        cbn [lift ret raise print modify fst snd requests stdout app];
        (repeat split; [discriminate | | eexists; reflexivity]).
      * intros s [H | []]. discriminate.
      * intros s [].
Qed.

End Probe.

(** ** The properties on sample environments *)

Lemma probe_prints_the_second_response_witness :
  truthy (full_environ "MYENERGI_SERIAL") = true
  /\ truthy (full_environ "MYENERGI_API_KEY") = true
  /\ redirecting_get 0%nat DIRECTOR_URL = Ok director_response
  /\ header_get (headers director_response) ASN_HEADER = Some "s18.myenergi.net"%string
  /\ requests (snd (test_myenergi full_environ redirecting_get))
     = [DIRECTOR_URL; "https://s18.myenergi.net/cgi-jstatus-*"%string]
  /\ test_myenergi full_environ redirecting_get
     = (Normal tt,
        mk_state [Repr (VDict [("zappi"%string, VList [])])]
                 [DIRECTOR_URL; "https://s18.myenergi.net/cgi-jstatus-*"%string]).
Proof.
  do 4 (split; [reflexivity |]).
  destruct (probe_prints_the_second_response full_environ redirecting_get
              director_response "s18.myenergi.net")
    as (H1 & H2 & _); only 1-4: reflexivity.
  split; [exact H1 |].
  apply (H2 status_response); reflexivity.
Defined.

(** C8 as stated fails: with both variables present, the serial set to
    the empty string, the probe still prints its instruction and exits
    with status 1 before any request. *)
Lemma blank_serial_exits_early :
  (exists serial, blank_serial_environ "MYENERGI_SERIAL" = Some serial)
  /\ (exists api_key, blank_serial_environ "MYENERGI_API_KEY" = Some api_key)
  /\ test_myenergi blank_serial_environ redirecting_get
     = (Exited 1,
        mk_state [Text "Set MYENERGI_SERIAL and MYENERGI_API_KEY environment variables"]
                 []).
Proof.
  split; [eexists; reflexivity |]. split; [eexists; reflexivity |]. reflexivity.
Qed.

Lemma probe_needs_both_variables_witness :
  (blank_serial_environ "MYENERGI_SERIAL" = Some ""%string
   /\ fst (test_myenergi blank_serial_environ redirecting_get) = Exited 1)
  /\ (full_environ "MYENERGI_SERIAL" = Some "12345678"%string
      /\ full_environ "MYENERGI_API_KEY" = Some "secret"%string
      /\ forall code, fst (test_myenergi full_environ redirecting_get) <> Exited code).
Proof.
  split.
  - split; [reflexivity |].
    rewrite (proj1 (probe_needs_both_variables blank_serial_environ redirecting_get));
      [reflexivity | right; left; reflexivity].
  - do 2 (split; [reflexivity |]).
    destruct (proj2 (probe_needs_both_variables full_environ redirecting_get)
                    "12345678"%string "secret"%string) as (H & _);
      only 1-4: first [reflexivity | discriminate].
    exact H.
Defined.

End TestMyenergiFacts.

(* ===================================================================== *)
(** * Further facts about [fetch_2025.py] *)
(* ===================================================================== *)

Module Fetch2025More.

Import Py Datetime Http Script PyFacts ScriptFacts Fetch2025 Fetch2025Facts.
Local Open Scope Z_scope.
Local Open Scope list_scope.

Section Session.

Variable get : string -> result response.

(** ** The requests *)

Lemma date_range_length (start end_ : date) :
  List.length (date_range start end_) = Z.to_nat (end_ - start + 1).
Proof. unfold date_range. rewrite length_map, length_seq. reflexivity. Qed.

(** X1.  Over a valid range the script issues exactly one GET per date,
    in ascending order of the dates and whatever the earlier responses
    were; the URL of a date is the server, the path [/cgi-jday-Z], the
    device and the date: the year in decimal as it stands (four digits
    from the year 1000 on), then month and day of the month on two
    digits each, joined by dashes; year, month and day are those of the
    calendar. *)
Theorem one_get_per_date (start end_ : date) :
  valid_range start end_ ->
  requests (snd (run get start end_))
  = map (fun d => ("https://s18.myenergi.net/cgi-jday-Z21962448-"
                     ++ str_of_Z (year_of d) ++ "-"
                     ++ (if (month_of d <? 10)%Z then "0" else "")
                     ++ str_of_Z (month_of d) ++ "-"
                     ++ (if (day_of d <? 10)%Z then "0" else "")
                     ++ str_of_Z (day_of d))%string)
        (date_range start end_)
  /\ List.length (requests (snd (run get start end_)))
     = Z.to_nat (end_ - start + 1)
  /\ (forall d, In d (date_range start end_) ->
                 ymd2ord (year_of d) (month_of d) (day_of d) = d
                 /\ 1 <= year_of d /\ 1 <= month_of d <= 12
                 /\ 1 <= day_of d <= days_in_month (year_of d) (month_of d)).
Proof.
  intro Hv.
  destruct (run_frame get start end_ (or_introl Hv)) as (_ & _ & _ & _ & Hreq & _).
  rewrite Hreq, (requests_loop_state get start end_ Hv). split; [| split].
  - apply map_ext. intro d. rewrite url_of_text.
    unfold url_text, iso_text, two_digits.
    rewrite !string_app_assoc. reflexivity.
  - rewrite length_map. apply date_range_length.
  - intros d Hd. apply in_date_range in Hd.
    apply ord2ymd_sound. destruct Hv. lia.
Qed.

(** ** Days that are passed over in silence *)

Lemma try_suite_unanswered (url : string) (st : state) :
  unanswered (get url) = true ->
  try_suite get url st = (Normal tt, log_request url st).
Proof.
  unfold unanswered, try_suite, bind, session_get.
  destruct (get url) as [resp | e]; [| discriminate].
  destruct (ok resp && negb (String.eqb (text resp) "")); [discriminate |].
  reflexivity.
Qed.

(** X2.  A date whose response is not OK, or whose body is empty, is
    passed over in silence: [resp.json()] is not even called, no error
    line is printed, and the totals and the processed-day count stay as
    they were; on a first of month the progress line is still printed. *)
Theorem unanswered_day_is_passed_over (start d : date) (resp : response) :
  valid_range start d -> start <= d ->
  get (url_of d) = Ok resp ->
  ok resp = false \/ text resp = ""%string ->
  totals (loop_state get start d) = totals (loop_state get start (d - 1))
  /\ days_processed (loop_state get start d)
     = days_processed (loop_state get start (d - 1))
  /\ stdout (loop_state get start d)
     = stdout (loop_state get start (d - 1))
       ++ progress_lines d (days_processed (loop_state get start (d - 1))).
Proof.
  intros [Hs Hm] Hd Hget Hresp.
  assert (Hun : unanswered (get (url_of d)) = true).
  { unfold unanswered. rewrite Hget.
    destruct Hresp as [-> | ->]; [reflexivity |].
    rewrite andb_comm. reflexivity. }
  destruct (loop_state_pass get start d) as (Ht & Hn & Hout); [lia | lia |].
  unfold lines_of_day in Hout.
  rewrite (try_suite_unanswered _ _ Hun) in Ht, Hn, Hout.
  repeat split; assumption.
Qed.

(** ** The keys of the accumulator *)

(** X10.  Whatever the responses hold, the accumulator ends with exactly
    the six tracked fields, in the order they were written in: no
    response adds, drops or moves a key. *)
Theorem totals_keep_their_keys (start end_ : date) :
  valid_range start end_ ->
  dict_keys (totals (snd (run get start end_)))
  = ["imp"; "exp"; "gep"; "gen"; "h1d"; "h1b"]%string.
Proof.
  intros [Hs He].
  destruct (run_frame get start end_ (or_introl (conj Hs He))) as (_ & -> & _).
  destruct (Z_lt_le_dec end_ start) as [Hlt | Hle].
  - rewrite loop_state_before by assumption. reflexivity.
  - apply (totals_keys_loop_state get start end_); lia.
Qed.

(** ** Every date is accounted for *)

Lemma pass_accounts (url : string) (st : state) (d : date) :
  (if answered (get url) && is_normal (fst (try_suite get url st)) then 1 else 0)
  + Z.of_nat (List.length (error_lines d (fst (try_suite get url st))))
  + (if unanswered (get url) then 1 else 0) = 1.
Proof.
  destruct (try_suite_frame get url st) as (Hs & _).
  unfold answered, unanswered.
  destruct (get url) as [resp | e] eqn:Hget.
  - destruct (ok resp && negb (String.eqb (text resp) "")) eqn:Hc.
    + destruct (fst (try_suite get url st)) as [[] | e | c |];
        simpl in *; try contradiction; reflexivity.
    + rewrite try_suite_unanswered
        by (unfold unanswered; rewrite Hget, Hc; reflexivity).
      reflexivity.
  - rewrite (try_suite_get_raises get url e st Hget). reflexivity.
Qed.

Lemma filter_error_day (start d : date) :
  filter is_error (lines_of_day get start d)
  = error_lines d (fst (try_suite get (url_of d) (loop_state get start (d - 1)))).
Proof.
  unfold lines_of_day. rewrite filter_app.
  assert (H1 : forall n, filter is_error (progress_lines d n) = []).
  { intro n. unfold progress_lines. destruct (day_of d =? 1); reflexivity. }
  rewrite H1, app_nil_r.
  destruct (fst (try_suite get (url_of d) (loop_state get start (d - 1))))
    as [[] | e | c |]; reflexivity.
Qed.

Lemma filter_error_report (ls : list (printer * string)) :
  Forall (fun l => fst l = ReportLine) ls -> filter is_error ls = [].
Proof.
  induction 1 as [| [p l] ls Hp _ IH]; simpl; [reflexivity |].
  unfold is_error at 1. simpl in *. rewrite Hp. exact IH.
Qed.

Lemma loop_accounts (start end_ : date) :
  valid_range start end_ ->
  days_processed (loop_state get start end_)
  + Z.of_nat (error_count (loop_state get start end_))
  + Z.of_nat (unanswered_days get start end_)
  = Z.of_nat (List.length (date_range start end_)).
Proof.
  intros [Hs He]. unfold error_count, unanswered_days.
  destruct (Z_lt_le_dec end_ start) as [Hlt | Hle].
  { rewrite loop_state_before, date_range_empty by assumption. reflexivity. }
  apply (range_ind start end_
           (fun d => days_processed (loop_state get start d)
                     + Z.of_nat (List.length (filter is_error
                                                (stdout (loop_state get start d))))
                     + Z.of_nat (List.length (filter (fun d' => unanswered (get (url_of d')))
                                                (date_range start d)))
                     = Z.of_nat (List.length (date_range start d))));
    [| | lia].
  - rewrite loop_state_before, date_range_empty by lia. reflexivity.
  - intros d Hd IH.
    destruct (loop_state_pass get start d) as (_ & Hn & Hout); [lia | lia |].
    destruct (try_suite_frame get (url_of d) (loop_state get start (d - 1)))
      as (_ & _ & _ & _ & _ & Hdays).
    pose proof (pass_accounts (url_of d) (loop_state get start (d - 1)) d) as Hacc.
    rewrite Hn, Hdays, Hout.
    rewrite filter_app, filter_error_day, (date_range_snoc start d) by lia.
    rewrite filter_app, !length_app. cbn [filter].
    destruct (unanswered (get (url_of d))); cbn [List.length app] in *;
      unfold date in *; lia.
Qed.

(** X3.  Every date of the range ends in exactly one of three ways: it
    is counted as processed, it gets an [Error ...] line, or its
    response is passed over because it is not OK or empty.  So the final
    count, the number of error lines and the number of such responses
    add up to the number of dates, and the count never exceeds it. *)
Theorem every_date_is_accounted_for (start end_ : date) :
  valid_range start end_ ->
  days_processed (snd (run get start end_))
  + Z.of_nat (error_count (snd (run get start end_)))
  + Z.of_nat (unanswered_days get start end_)
  = Z.max 0 (end_ - start + 1)
  /\ 0 <= days_processed (snd (run get start end_)) <= Z.max 0 (end_ - start + 1).
Proof.
  intro Hv.
  destruct (run_frame get start end_ (or_introl Hv))
    as (_ & _ & Hn & _ & _ & ls & Hout & Hls).
  pose proof (loop_accounts start end_ Hv) as H.
  pose proof (days_processed_loop_state get start end_ Hv) as Hc.
  unfold error_count in *.
  rewrite Hn, Hout, filter_app, (filter_error_report ls Hls), app_nil_r.
  rewrite date_range_length in H. unfold date in *. lia.
Qed.

(** ** What the run prints, and how it ends *)

(** The script is the loop followed by the report, or the loop alone
    when it stopped on an exception. *)
Lemma run_cases (start end_ : date) :
  valid_range start end_ ->
  run get start end_ = report (loop_state get start end_)
  \/ exists e, run get start end_ = (Raised e, loop_state get start end_).
Proof.
  intro Hv. pose proof (loop_settled get start end_ Hv) as Hs.
  unfold run, bind, loop_state.
  destruct (loop get (fuel_for start end_) end_ (initial start))
    as [[[] | e | c |] st']; cbn [fst snd] in *; try contradiction.
  - left. reflexivity.
  - right. exists e. reflexivity.
Qed.

(** Case analysis along the statements of the report. *)
Ltac report_cases :=
  unfold report, kwh_line, totals_get, bind, gets, print, modify;
  cbn [totals days_processed current stdout requests];
  repeat (match goal with
          | |- context [match dict_get ?t ?f with _ => _ end] =>
              destruct (dict_get t f) eqn:?
          | |- context [lift ?r] => destruct r eqn:?
          end;
          cbn [lift ret raise fst snd totals days_processed current stdout requests]).

Lemma report_normal_lines (st : state) :
  fst (report st) = Normal tt ->
  exists qi qe qg qc,
    stdout (snd (report st))
    = stdout st ++ report_lines (days_processed st) qi qe qg qc.
Proof.
  report_cases; intro H; try discriminate H.
  do 4 eexists. unfold report_lines. rewrite <- !app_assoc. reflexivity.
Qed.

(** X4.  When the run ends normally, what it has printed is, for each
    date of the range in order, the error line of the date if its suite
    raised and then its progress line if it is a first of month, and
    after all of these exactly the five lines of the report, whose
    header carries the final processed-day count. *)
Theorem output_of_a_normal_run (start end_ : date) :
  valid_range start end_ ->
  fst (run get start end_) = Normal tt ->
  exists qi qe qg qc,
    stdout (snd (run get start end_))
    = flat_map (lines_of_day get start) (date_range start end_)
      ++ [ header_line (days_processed (snd (run get start end_)));
           (ReportLine, ("Import (from grid): " ++ format_1f qi ++ " kWh")%string);
           (ReportLine, ("Export (to grid):   " ++ format_1f qe ++ " kWh")%string);
           (ReportLine, ("Generation (solar): " ++ format_1f qg ++ " kWh")%string);
           (ReportLine, ("Consumption (est.): " ++ format_1f qc ++ " kWh")%string) ].
Proof.
  intros Hv Hn.
  destruct (run_frame get start end_ (or_introl Hv)) as (_ & _ & Hd & _).
  rewrite Hd.
  destruct (run_cases start end_ Hv) as [Hr | [e Hr]];
    rewrite Hr in Hn |- *; [| discriminate Hn].
  destruct (report_normal_lines _ Hn) as (qi & qe & qg & qc & Hout).
  exists qi, qe, qg, qc.
  rewrite Hout, (stdout_loop_state get start end_ Hv). reflexivity.
Qed.

(** ** A range that ends on [date.max] *)

Lemma loop_overflow (n : nat) :
  forall (fuel : nat) (st : state),
    0 <= current st <= MAXORDINAL ->
    n = Z.to_nat (MAXORDINAL - current st) -> (Datatypes.S n < fuel)%nat ->
    fst (loop get fuel MAXORDINAL st)
    = Raised (OverflowError "date value out of range").
Proof.
  induction n as [| n IH]; intros fuel st Hc Hn Hf;
    (destruct fuel as [| fuel]; [lia |]); unfold loop; simpl while;
    replace (current st <=? MAXORDINAL) with true by (symmetry; apply Z.leb_le; lia);
    unfold bind.
  - rewrite (iteration_last get st) by lia. reflexivity.
  - rewrite (iteration_step get st) by lia.
    fold (loop get fuel MAXORDINAL).
    apply IH; rewrite ?(current_step get st) by lia; lia.
Qed.

Lemma no_report_line_in_day (start d : date) :
  filter is_report (lines_of_day get start d) = [].
Proof.
  unfold lines_of_day, progress_lines. rewrite filter_app.
  destruct (fst (try_suite get (url_of d) (loop_state get start (d - 1))))
    as [[] | e | c |]; destruct (day_of d =? 1); reflexivity.
Qed.

(** X5.  A range that ends on [date.max] (9999-12-31) is walked to its
    last date, whose URL is still requested; then the addition of one
    day raises [OverflowError], outside the [try]: the script stops
    there and prints no line of the report. *)
Theorem range_ending_on_date_max (start : date) :
  1 <= start <= MAXORDINAL ->
  fst (run get start MAXORDINAL)
  = Raised (OverflowError "date value out of range")
  /\ In (url_of MAXORDINAL) (requests (snd (run get start MAXORDINAL)))
  /\ filter is_report (stdout (snd (run get start MAXORDINAL))) = [].
Proof.
  intro Hs.
  assert (Hv : valid_range start MAXORDINAL) by (unfold valid_range; lia).
  assert (Hl : fst (loop get (fuel_for start MAXORDINAL) MAXORDINAL (initial start))
               = Raised (OverflowError "date value out of range")).
  { apply (loop_overflow (Z.to_nat (MAXORDINAL - start)));
      cbn [current initial]; unfold fuel_for; lia. }
  assert (Hr : run get start MAXORDINAL
               = (Raised (OverflowError "date value out of range"),
                  loop_state get start MAXORDINAL)).
  { unfold run, bind, loop_state.
    destruct (loop get (fuel_for start MAXORDINAL) MAXORDINAL (initial start))
      as [o st']. cbn [fst snd] in *. rewrite Hl. reflexivity. }
  rewrite Hr. cbn [fst snd]. split; [reflexivity |]. split.
  - rewrite (requests_loop_state get start MAXORDINAL Hv).
    apply in_map, in_date_range. lia.
  - rewrite (stdout_loop_state get start MAXORDINAL Hv).
    induction (date_range start MAXORDINAL) as [| d l IH]; [reflexivity |].
    simpl. rewrite filter_app, no_report_line_in_day, IH. reflexivity.
Qed.

(** ** No response stops the loop *)

Lemma float_of_int_overflow (z : Z) (e : exn) :
  float_of_int z = Err e -> exists msg, e = OverflowError msg.
Proof.
  unfold float_of_int.
  destruct (binary_normalize prec emax z 0 false); intro H; inversion H.
  eexists; reflexivity.
Qed.

Lemma truediv_overflow (n : number) (d : positive) (e : exn) :
  truediv n d = Err e -> exists msg, e = OverflowError msg.
Proof.
  unfold truediv. destruct n as [[| m | m] | f].
  - discriminate.
  - destruct (SFdiv prec emax _ _); intro H; inversion H. eexists; reflexivity.
  - destruct (SFdiv prec emax _ _); intro H; inversion H. eexists; reflexivity.
  - unfold rbind. destruct (float_of_int (Zpos d)) as [g | e0] eqn:E;
      intro H; inversion H. subst. eapply float_of_int_overflow, E.
Qed.

Lemma num_add_overflow (a b : number) (e : exn) :
  num_add a b = Err e -> exists msg, e = OverflowError msg.
Proof.
  destruct a as [x | f], b as [y | g]; unfold num_add, rbind; try discriminate.
  - destruct (float_of_int x) eqn:E; intro H; inversion H. subst.
    eapply float_of_int_overflow, E.
  - destruct (float_of_int y) eqn:E; intro H; inversion H. subst.
    eapply float_of_int_overflow, E.
Qed.

Lemma num_sub_overflow (a b : number) (e : exn) :
  num_sub a b = Err e -> exists msg, e = OverflowError msg.
Proof.
  destruct a as [x | f], b as [y | g]; unfold num_sub, rbind; try discriminate.
  - destruct (float_of_int x) eqn:E; intro H; inversion H. subst.
    eapply float_of_int_overflow, E.
  - destruct (float_of_int y) eqn:E; intro H; inversion H. subst.
    eapply float_of_int_overflow, E.
Qed.

Lemma report_header (st : state) :
  exists ls,
    stdout (snd (report st)) = stdout st ++ header_line (days_processed st) :: ls.
Proof.
  report_cases; eexists; unfold header_line; rewrite <- ?app_assoc; reflexivity.
Qed.

Lemma tracked_totals_present (st : state) (f : string) :
  dict_keys (totals st) = fields -> In f fields -> dict_get (totals st) f <> None.
Proof.
  intros Hk Hf. destruct (keys_shape _ Hk) as (n1 & n2 & n3 & n4 & n5 & n6 & ->).
  each_field Hf; simpl; discriminate.
Qed.

Lemma report_outcome (st : state) :
  dict_keys (totals st) = fields -> normal_or_overflow (fst (report st)).
Proof.
  intro Hk.
  pose proof (tracked_totals_present st "imp" Hk ltac:(simpl; auto)) as Hi.
  pose proof (tracked_totals_present st "exp" Hk ltac:(simpl; auto)) as He.
  pose proof (tracked_totals_present st "gep" Hk ltac:(simpl; auto)) as Hg.
  unfold normal_or_overflow.
  report_cases; try congruence;
    first [ left; reflexivity | right ];
    match goal with
    | H : truediv _ _ = Err ?e |- _ => destruct (truediv_overflow _ _ _ H) as [msg ->]
    | H : num_add _ _ = Err ?e |- _ => destruct (num_add_overflow _ _ _ H) as [msg ->]
    | H : num_sub _ _ = Err ?e |- _ => destruct (num_sub_overflow _ _ _ H) as [msg ->]
    end;
    eexists; reflexivity.
Qed.

(** X6.  For a range that ends before [date.max], no response can stop
    the script before its report: whatever the session returns or
    raises, the header of the report is printed with the final count,
    and the script ends normally or, if at all, on an [OverflowError]
    of the arithmetic of the report. *)
Theorem no_response_stops_the_run (start end_ : date) :
  1 <= start -> end_ < MAXORDINAL ->
  normal_or_overflow (fst (run get start end_))
  /\ In (header_line (days_processed (snd (run get start end_))))
        (stdout (snd (run get start end_))).
Proof.
  intros Hs He.
  assert (Hv : valid_range start end_) by (unfold valid_range; lia).
  destruct (run_frame get start end_ (or_introl Hv)) as (_ & _ & Hd & _).
  rewrite Hd.
  rewrite (run_report get start end_) by (left; split; assumption).
  split.
  - apply report_outcome.
    destruct (Z_lt_le_dec end_ start) as [Hlt | Hle].
    + rewrite loop_state_before by assumption. reflexivity.
    + apply (totals_keys_loop_state get start end_); lia.
  - destruct (report_header (loop_state get start end_)) as [ls ->].
    apply in_or_app. right. left. reflexivity.
Qed.

(** ** Readings that are no objects *)

Lemma add_field_non_object (reading : value) (f : string) (st : state) :
  is_object reading = false -> snd (add_field reading f st) = st.
Proof.
  intro H. unfold add_field, bind, lift, totals_get, modify, ret, raise.
  destruct reading as [| b | n | s | l | kv]; try discriminate H;
    cbn [contains]; try reflexivity.
  - destruct (is_substring f s); [| reflexivity].
    destruct (dict_get (totals st) f); reflexivity.
  - destruct (existsb (is_str f) l); [| reflexivity].
    destruct (dict_get (totals st) f); reflexivity.
Qed.

Lemma add_reading_non_object (reading : value) (st : state) :
  is_object reading = false -> snd (add_reading reading st) = st.
Proof.
  intro H. unfold add_reading. unfold bind at 1. unfold gets.
  generalize (dict_keys (totals st)). intro fs.
  revert st. induction fs as [| f fs IH]; intro st; [reflexivity |].
  cbn [for_each]. unfold bind.
  pose proof (add_field_non_object reading f st H) as Hf.
  destruct (add_field reading f st) as [[[] | e | c |] st1];
    cbn [snd] in *; subst st1; try reflexivity.
  apply IH.
Qed.

Lemma readings_non_objects (readings : list value) (st : state) :
  forallb (fun v => negb (is_object v)) readings = true ->
  snd (for_each readings add_reading st) = st.
Proof.
  revert st. induction readings as [| r rs IH]; intros st H; [reflexivity |].
  cbn [forallb] in H. apply andb_prop in H. destruct H as [Hr Hrs].
  apply negb_true_iff in Hr.
  cbn [for_each]. unfold bind.
  pose proof (add_reading_non_object r st Hr) as Hf.
  destruct (add_reading r st) as [[[] | e | c |] st1];
    cbn [snd] in *; subst st1; try reflexivity.
  apply IH, Hrs.
Qed.

Lemma try_suite_non_objects (url : string) (st : state) :
  forallb (fun v => negb (is_object v)) (iterated (get url)) = true ->
  totals (snd (try_suite get url st)) = totals st.
Proof.
  unfold iterated, parsed, try_suite, bind, session_get.
  destruct (get url) as [resp | e]; [| reflexivity].
  destruct (ok resp && negb (String.eqb (text resp) "")); [| reflexivity].
  destruct (json resp) as [data | e]; [| reflexivity].
  cbn [lift ret].
  destruct (contains data key) as [[|] | e]; cbn [lift ret raise]; try reflexivity.
  destruct (rbind (getitem data key) iter) as [readings | e];
    cbn [lift ret raise]; [| reflexivity].
  intro H.
  pose proof (readings_non_objects readings (log_request url st) H) as Hr.
  destruct (for_each readings add_reading (log_request url st))
    as [[[] | e | c |] st1]; cbn [snd] in *; subst st1; reflexivity.
Qed.

(** X7.  Only reading records that are JSON objects can change a total.
    When what the loop over [data[key]] ranges over holds no object
    (the readings came as one object, as a string, as a list of numbers
    or strings, ...), every total after the date's pass is what it was
    before, whether the day then counts as processed or raises. *)
Theorem only_objects_change_totals (start d : date) :
  valid_range start d -> start <= d ->
  forallb (fun v => negb (is_object v)) (iterated (get (url_of d))) = true ->
  totals (loop_state get start d) = totals (loop_state get start (d - 1)).
Proof.
  intros [Hs Hm] Hd H.
  destruct (loop_state_pass get start d) as (-> & _ & _); [lia | lia |].
  apply try_suite_non_objects, H.
Qed.

(** ** Fields that are not tracked *)

Lemma add_field_tracked_only (kv kv' : list (string * value)) (f : string) (st : state) :
  dict_get kv f = dict_get kv' f ->
  add_field (VDict kv) f st = add_field (VDict kv') f st.
Proof.
  intro H. unfold add_field, bind, lift. cbn [contains getitem].
  rewrite !existsb_keys, H. reflexivity.
Qed.

Lemma add_fields_tracked_only (kv kv' : list (string * value)) (fs : list string) :
  (forall f, In f fs -> dict_get kv f = dict_get kv' f) ->
  forall st, for_each fs (add_field (VDict kv)) st
             = for_each fs (add_field (VDict kv')) st.
Proof.
  induction fs as [| f fs IH]; intros H st; [reflexivity |].
  cbn [for_each]. unfold bind.
  rewrite (add_field_tracked_only kv kv' f st) by (apply H; now left).
  destruct (add_field (VDict kv') f st) as [[[] | e | c |] st1]; try reflexivity.
  apply IH. intros g Hg. apply H. now right.
Qed.

(** X9.  Adding a reading record looks at its six tracked fields and at
    nothing else: two records that hold the same under each tracked
    field are added alike, whatever other fields they carry and in
    whatever order their fields come. *)
Theorem untracked_fields_are_ignored (kv kv' : list (string * value)) (st : state) :
  dict_keys (totals st) = fields ->
  (forall f, In f fields -> dict_get kv f = dict_get kv' f) ->
  add_reading (VDict kv) st = add_reading (VDict kv') st.
Proof.
  intros Hk H. unfold add_reading. unfold bind at 1 2. unfold gets.
  rewrite Hk. apply add_fields_tracked_only, H.
Qed.

(** ** The year 2025 *)

Lemma progress_of_loop (start end_ : date) :
  valid_range start end_ ->
  filter is_progress (stdout (loop_state get start end_))
  = map (fun d => progress_line d (days_processed (loop_state get start d)))
        (filter (fun d => day_of d =? 1) (date_range start end_)).
Proof.
  intros [Hs He].
  rewrite (stdout_loop_state get start end_) by (split; assumption).
  assert (H : forall l : list date,
             (forall d, In d l -> start <= d <= end_) ->
             filter is_progress (flat_map (lines_of_day get start) l)
             = map (fun d => progress_line d (days_processed (loop_state get start d)))
                   (filter (fun d => day_of d =? 1) l)).
  { induction l as [| d l IH]; intro Hin; [reflexivity |].
    pose proof (Hin d (or_introl eq_refl)) as Hd.
    simpl. rewrite filter_app, filter_progress_day, IH by (intros; apply Hin; now right).
    destruct (loop_state_pass get start d) as (_ & <- & _); [lia | lia |].
    unfold progress_lines. destruct (day_of d =? 1); reflexivity. }
  apply H. intros d Hd. apply in_date_range in Hd. exact Hd.
Qed.

(** X13.  The script as it stands, whatever the server does: it issues
    365 requests, the first for 2025-01-01 and the last for 2025-12-31,
    and prints twelve progress lines, one for the first of each month
    from January to December, each with the count reached on that day. *)
Theorem the_year_2025 :
  List.length (requests (snd (fetch_2025 get))) = 365%nat
  /\ hd_error (requests (snd (fetch_2025 get)))
     = Some "https://s18.myenergi.net/cgi-jday-Z21962448-2025-01-01"%string
  /\ last (requests (snd (fetch_2025 get))) ""%string
     = "https://s18.myenergi.net/cgi-jday-Z21962448-2025-12-31"%string
  /\ filter is_progress (stdout (snd (fetch_2025 get)))
     = map (fun m => progress_line (mkdate 2025 m 1)
                       (days_processed
                          (loop_state get (mkdate 2025 1 1) (mkdate 2025 m 1))))
           [1; 2; 3; 4; 5; 6; 7; 8; 9; 10; 11; 12].
Proof.
  assert (Hv : valid_range (mkdate 2025 1 1) (mkdate 2025 12 31)) by by_computing.
  unfold fetch_2025.
  destruct (run_frame get _ _ (or_introl Hv)) as (_ & _ & _ & _ & Hreq & ls & Hout & Hls).
  rewrite Hreq, Hout, (requests_loop_state get _ _ Hv).
  rewrite filter_app, (filter_progress_report ls Hls), app_nil_r.
  rewrite (progress_of_loop _ _ Hv).
  replace (filter (fun d => day_of d =? 1)
                  (date_range (mkdate 2025 1 1) (mkdate 2025 12 31)))
    with (map (fun m => mkdate 2025 m 1) [1; 2; 3; 4; 5; 6; 7; 8; 9; 10; 11; 12])
    by (vm_compute; reflexivity).
  rewrite map_map.
  repeat split; vm_compute; reflexivity.
Qed.

End Session.

(** ** Two sessions that agree on a range *)

Section Two_sessions.

Variables get get' : string -> result response.

Lemma try_suite_ext (url : string) (st : state) :
  get url = get' url -> try_suite get url st = try_suite get' url st.
Proof. intro H. unfold try_suite, bind, session_get. rewrite H. reflexivity. Qed.

Lemma iteration_ext (st : state) :
  get (url_of (current st)) = get' (url_of (current st)) ->
  iteration get st = iteration get' st.
Proof.
  intro H. unfold iteration. unfold bind at 1 5. unfold gets.
  unfold bind at 1 4. unfold try_except.
  change (day_url (strftime_Ymd (current st))) with (url_of (current st)).
  rewrite (try_suite_ext _ st H). reflexivity.
Qed.

Lemma loop_ext (fuel : nat) (end_ : date) :
  end_ <= MAXORDINAL ->
  forall st : state,
    0 <= current st ->
    (forall d, current st <= d <= end_ -> get (url_of d) = get' (url_of d)) ->
    loop get fuel end_ st = loop get' fuel end_ st.
Proof.
  intro He. induction fuel as [| fuel IH]; intros st Hc Hag; [reflexivity |].
  unfold loop. simpl while.
  destruct (Z.leb_spec (current st) end_) as [Hle | Hgt]; [| reflexivity].
  unfold bind. rewrite <- (iteration_ext st) by (apply Hag; lia).
  destruct (Z_lt_le_dec (current st) MAXORDINAL) as [Hlt | Hge].
  - rewrite (iteration_step get st) by lia.
    apply IH.
    + rewrite (current_step get st) by lia. lia.
    + intros d Hd. apply Hag. rewrite (current_step get st) in Hd by lia. lia.
  - rewrite (iteration_last get st) by lia. reflexivity.
Qed.

(** X8.  The run over a range depends on the session only through what
    it does for the URLs of the dates of that range: two sessions that
    agree on those dates give the same totals, the same count, the same
    output and the same end, whatever they would do for other URLs. *)
Theorem only_the_range_matters (start end_ : date) :
  valid_range start end_ ->
  (forall d, start <= d <= end_ -> get (url_of d) = get' (url_of d)) ->
  run get start end_ = run get' start end_.
Proof.
  intros [Hs He] Hag. unfold run, bind.
  rewrite (loop_ext (fuel_for start end_) end_ He (initial start));
    [reflexivity | simpl; lia | exact Hag].
Qed.

End Two_sessions.

(** ** The further properties on sample sessions *)

Import Samples.

Lemma one_get_per_date_witness :
  valid_range jan1 jan3
  /\ List.length (requests (snd (run mixed_get jan1 jan3))) = 3%nat
  /\ requests (snd (run mixed_get jan1 jan3))
     = [ "https://s18.myenergi.net/cgi-jday-Z21962448-2025-01-01";
         "https://s18.myenergi.net/cgi-jday-Z21962448-2025-01-02";
         "https://s18.myenergi.net/cgi-jday-Z21962448-2025-01-03" ]%string.
Proof.
  split; [by_computing |].
  destruct (one_get_per_date mixed_get jan1 jan3 ltac:(by_computing))
    as (H1 & H2 & _).
  split; [exact H2 |].
  rewrite H1. reflexivity.
Defined.

Lemma unanswered_day_is_passed_over_witness :
  valid_range jan1 jan1 /\ jan1 <= jan1
  /\ ok (mk_response false "{...}"
           (Ok (VDict [(key, VList [one_kwh_reading])])) []) = false
  /\ totals (loop_state shapes_get jan1 jan1)
     = totals (loop_state shapes_get jan1 (jan1 - 1))
  /\ stdout (loop_state shapes_get jan1 jan1)
     = stdout (loop_state shapes_get jan1 (jan1 - 1))
       ++ progress_lines jan1 (days_processed (loop_state shapes_get jan1 (jan1 - 1))).
Proof.
  split; [by_computing |]. split; [by_computing |]. split; [reflexivity |].
  destruct (unanswered_day_is_passed_over shapes_get jan1 jan1
              (mk_response false "{...}"
                 (Ok (VDict [(key, VList [one_kwh_reading])])) []))
    as (H1 & _ & H3);
    [by_computing | by_computing | reflexivity | left; reflexivity |].
  split; [exact H1 | exact H3].
Defined.

Lemma every_date_is_accounted_for_witness :
  valid_range jan1 jan3
  /\ days_processed (snd (run mixed_get jan1 jan3))
     + Z.of_nat (error_count (snd (run mixed_get jan1 jan3)))
     + Z.of_nat (unanswered_days mixed_get jan1 jan3)
     = Z.max 0 (jan3 - jan1 + 1).
Proof.
  split; [by_computing |].
  apply (proj1 (every_date_is_accounted_for mixed_get jan1 jan3 ltac:(by_computing))).
Defined.

Lemma accounts_of_three_days :
  days_processed (snd (run mixed_get jan1 jan3)) = 1
  /\ error_count (snd (run mixed_get jan1 jan3)) = 2%nat
  /\ unanswered_days mixed_get jan1 jan3 = 0%nat
  /\ days_processed (snd (run shapes_get jan1 jan3)) = 0
  /\ error_count (snd (run shapes_get jan1 jan3)) = 1%nat
  /\ unanswered_days shapes_get jan1 jan3 = 2%nat.
Proof. vm_compute. repeat split. Qed.

Lemma output_of_a_normal_run_witness :
  valid_range jan1 jan3
  /\ fst (run mixed_get jan1 jan3) = Normal tt
  /\ exists qi qe qg qc,
       stdout (snd (run mixed_get jan1 jan3))
       = flat_map (lines_of_day mixed_get jan1) (date_range jan1 jan3)
         ++ [ header_line (days_processed (snd (run mixed_get jan1 jan3)));
              (ReportLine, ("Import (from grid): " ++ format_1f qi ++ " kWh")%string);
              (ReportLine, ("Export (to grid):   " ++ format_1f qe ++ " kWh")%string);
              (ReportLine, ("Generation (solar): " ++ format_1f qg ++ " kWh")%string);
              (ReportLine, ("Consumption (est.): " ++ format_1f qc ++ " kWh")%string) ].
Proof.
  split; [by_computing |]. split; [reflexivity |].
  apply (output_of_a_normal_run mixed_get jan1 jan3); [by_computing | reflexivity].
Defined.

Lemma range_ending_on_date_max_witness :
  1 <= MAXORDINAL - 1 <= MAXORDINAL
  /\ fst (run mixed_get (MAXORDINAL - 1) MAXORDINAL)
     = Raised (OverflowError "date value out of range").
Proof.
  split; [by_computing |].
  apply (proj1 (range_ending_on_date_max mixed_get (MAXORDINAL - 1) ltac:(by_computing))).
Defined.

Lemma no_response_stops_the_run_witness :
  1 <= jan1 /\ jan3 < MAXORDINAL
  /\ normal_or_overflow (fst (run mixed_get jan1 jan3))
  /\ In (header_line (days_processed (snd (run mixed_get jan1 jan3))))
        (stdout (snd (run mixed_get jan1 jan3))).
Proof.
  split; [by_computing |]. split; [by_computing |].
  apply (no_response_stops_the_run mixed_get jan1 jan3); by_computing.
Defined.

Lemma only_objects_change_totals_witness :
  valid_range jan1 jan3 /\ jan1 <= jan3
  /\ iterated (shapes_get (url_of jan3)) = [VStr "gen"]
  /\ totals (loop_state shapes_get jan1 jan3)
     = totals (loop_state shapes_get jan1 (jan3 - 1)).
Proof.
  split; [by_computing |]. split; [by_computing |]. split; [reflexivity |].
  apply (only_objects_change_totals shapes_get jan1 jan3);
    [by_computing | by_computing | reflexivity].
Defined.

Lemma only_the_range_matters_witness :
  valid_range jan1 jan3
  /\ (forall d, jan1 <= d <= jan3 ->
                mixed_get (url_of d) = mixed_then_down_get (url_of d))
  /\ mixed_get (url_of jan4) <> mixed_then_down_get (url_of jan4)
  /\ run mixed_get jan1 jan3 = run mixed_then_down_get jan1 jan3.
Proof.
  assert (Hag : forall d, jan1 <= d <= jan3 ->
                          mixed_get (url_of d) = mixed_then_down_get (url_of d)).
  { intros d Hd. change jan1 with 739252 in Hd. change jan3 with 739254 in Hd.
    assert (Hc : d = 739252 \/ d = 739253 \/ d = 739254) by lia.
    destruct Hc as [-> | [-> | ->]]; vm_compute; reflexivity. }
  split; [by_computing |]. split; [exact Hag |].
  split; [vm_compute; discriminate |].
  apply (only_the_range_matters mixed_get mixed_then_down_get jan1 jan3);
    [by_computing | exact Hag].
Defined.

Lemma untracked_fields_are_ignored_witness :
  dict_keys (totals (initial jan1)) = fields
  /\ (forall f, In f fields -> dict_get busy_reading f = dict_get plain_reading f)
  /\ add_reading (VDict busy_reading) (initial jan1)
     = add_reading (VDict plain_reading) (initial jan1).
Proof.
  assert (Hag : forall f, In f fields ->
                          dict_get busy_reading f = dict_get plain_reading f).
  { intros f Hf. each_field Hf; reflexivity. }
  split; [reflexivity |]. split; [exact Hag |].
  apply (untracked_fields_are_ignored busy_reading plain_reading (initial jan1));
    [reflexivity | exact Hag].
Defined.

Lemma totals_keep_their_keys_witness :
  valid_range jan1 jan3
  /\ dict_keys (totals (snd (run mixed_get jan1 jan3)))
     = ["imp"; "exp"; "gep"; "gen"; "h1d"; "h1b"]%string.
Proof.
  split; [by_computing |].
  apply (totals_keep_their_keys mixed_get jan1 jan3). by_computing.
Defined.

End Fetch2025More.

(* ===================================================================== *)
(** * Further facts about [test_myenergi.py] *)
(* ===================================================================== *)

Module TestMyenergiMore.

Import Py Http Script TestMyenergi TestMyenergiFacts Samples.
Local Open Scope list_scope.

Section Probe.

Variable environ : string -> option string.
Variable get : nat -> string -> result response.

(** X11.  When the response of the director carries no
    server-assignment header, the probe issues no second request: it
    prints the decoded body of the director's own response, or, if that
    body does not decode, ends on the decoder's exception having
    printed nothing. *)
Theorem probe_without_the_header (resp1 : response) :
  truthy (environ "MYENERGI_SERIAL") = true ->
  truthy (environ "MYENERGI_API_KEY") = true ->
  get 0%nat DIRECTOR_URL = Ok resp1 ->
  header_get (headers resp1) ASN_HEADER = None ->
  requests (snd (test_myenergi environ get)) = [DIRECTOR_URL]
  /\ (forall body, json resp1 = Ok body ->
         test_myenergi environ get
         = (Normal tt, mk_state [Repr body] [DIRECTOR_URL]))
  /\ (forall e, json resp1 = Err e ->
         test_myenergi environ get = (Raised e, mk_state [] [DIRECTOR_URL])).
Proof.
  intros Hs Hk Hget Hasn.
  rewrite (probe_configured environ get Hs Hk).
  unfold bind, session_get, header_in, header_item, initial.
  cbn [requests stdout List.length app]. rewrite Hget, Hasn.
  cbn [ret requests stdout List.length app].
  destruct (json resp1) as [body | e];
    cbn [lift ret raise print modify fst snd requests stdout app].
  - split; [reflexivity |]. split.
    + intros b Hb. injection Hb as <-. reflexivity.
    + intros e He. discriminate He.
  - split; [reflexivity |]. split.
    + intros b Hb. discriminate Hb.
    + intros e' He. injection He as <-. reflexivity.
Qed.

(** X12.  With both variables set, the probe issues one or two requests
    and prints at most once.  If it ends normally it has printed exactly
    one decoded body; if a GET raises or a body does not decode, the
    exception ends the script and nothing has been printed; and if the
    director cannot be reached at all, that is the only request. *)
Theorem probe_prints_once_or_not_at_all :
  truthy (environ "MYENERGI_SERIAL") = true ->
  truthy (environ "MYENERGI_API_KEY") = true ->
  (List.length (requests (snd (test_myenergi environ get))) = 1%nat
   \/ List.length (requests (snd (test_myenergi environ get))) = 2%nat)
  /\ hd_error (requests (snd (test_myenergi environ get))) = Some DIRECTOR_URL
  /\ (fst (test_myenergi environ get) = Normal tt ->
      exists body, stdout (snd (test_myenergi environ get)) = [Repr body])
  /\ (forall e, fst (test_myenergi environ get) = Raised e ->
                 stdout (snd (test_myenergi environ get)) = [])
  /\ (forall e, get 0%nat DIRECTOR_URL = Err e ->
                 test_myenergi environ get = (Raised e, mk_state [] [DIRECTOR_URL])).
Proof.
  intros Hs Hk.
  rewrite (probe_configured environ get Hs Hk).
  unfold bind, session_get, header_in, header_item, initial.
  cbn [requests stdout List.length app].
  destruct (get 0%nat DIRECTOR_URL) as [resp1 | e1].
  - destruct (header_get (headers resp1) ASN_HEADER) as [server |];
      cbn [ret requests stdout List.length app].
    + destruct (get 1%nat _) as [resp2 | e2].
      * destruct (json resp2) as [body | e];
          cbn [lift ret raise print modify fst snd requests stdout app List.length hd_error];
          (split; [right; reflexivity |]); (split; [reflexivity |]); split;
          [ intros _; eexists; reflexivity | split; intros; discriminate
          | intro H; discriminate H | split; [reflexivity | intros; discriminate] ].
      * cbn [fst snd requests stdout List.length hd_error].
        split; [right; reflexivity |]. split; [reflexivity |]. split;
          [intro H; discriminate H | split; [reflexivity | intros; discriminate]].
    + destruct (json resp1) as [body | e];
        cbn [lift ret raise print modify fst snd requests stdout app List.length hd_error];
        (split; [left; reflexivity |]); (split; [reflexivity |]); split;
        [ intros _; eexists; reflexivity | split; intros; discriminate
        | intro H; discriminate H | split; [reflexivity | intros; discriminate] ].
  - cbn [fst snd requests stdout List.length hd_error].
    split; [left; reflexivity |]. split; [reflexivity |]. split;
      [intro H; discriminate H |]. split; [reflexivity |].
    intros e He. injection He as <-. reflexivity.
Qed.

End Probe.

(** ** The further properties on sample sessions *)

Lemma probe_without_the_header_witness :
  truthy (full_environ "MYENERGI_SERIAL") = true
  /\ truthy (full_environ "MYENERGI_API_KEY") = true
  /\ direct_get 0%nat DIRECTOR_URL = Ok plain_director_response
  /\ header_get (headers plain_director_response) ASN_HEADER = None
  /\ test_myenergi full_environ direct_get
     = (Normal tt,
        mk_state [Repr (VDict [("director"%string, VBool true)])] [DIRECTOR_URL]).
Proof.
  do 4 (split; [reflexivity |]).
  destruct (probe_without_the_header full_environ direct_get plain_director_response)
    as (_ & H2 & _); only 1-4: reflexivity.
  apply H2. reflexivity.
Defined.

Lemma probe_prints_once_or_not_at_all_witness :
  truthy (full_environ "MYENERGI_SERIAL") = true
  /\ truthy (full_environ "MYENERGI_API_KEY") = true
  /\ test_myenergi full_environ down_get
     = (Raised (mk_exn "ConnectionError" "connection refused"),
        mk_state [] [DIRECTOR_URL]).
Proof.
  do 2 (split; [reflexivity |]).
  destruct (probe_prints_once_or_not_at_all full_environ down_get)
    as (_ & _ & _ & _ & H); only 1-2: reflexivity.
  apply H. reflexivity.
Defined.

End TestMyenergiMore.

